(** * sphinx-autodocgen: a shallow embedding of [AutoDocGen]

    The development follows [sphinxcontrib_autodocgen/__init__.py].
    - Python strings are [string]s, dictionaries that are iterated in
      insertion order are association lists, Python sets are [gset]s and
      the generated directory is a finite map from entry name to content.
    - The services of the host (the [re] module, [os.path.normpath],
      [sphinx.util.rst.escape] and the autodoc documenter) are not code of
      this repository: they are the fields of a [Host] record over which
      the whole embedding is parametrised.
    - [self] (the two session sets), the files of the generated directory
      and a trace of the file operations form the [session] that is
      threaded through the methods; an exception leaves the session as it
      was when it was raised.

    What the embedding takes for granted:
    - [assert] statements are executed (Python does not run with [-O]);
    - the configuration holds every key ([generate] fills in the defaults
      first); a callback is a function of its arguments, and the options
      callback may also edit the dictionary of defaults it is passed;
    - module names are dotted names without a path separator, so that the
      file of a module is the entry [name.rst] of the generated directory;
    - the listing of documented items is written to the entry of its
      name: this is what the code does for a plain file name, and the
      statements about the entries after a run assume one
      ([listing_is_plain]);
    - the generated directory holds files only, and removing or writing
      an entry succeeds. *)

From Stdlib Require Import Ascii String List.
From stdpp Require Import base option list strings gmap sorting.

#[local] Set Warnings "-clear-no-such-hyp".

Local Open Scope string_scope.
Local Open Scope list_scope.

(** ** Strings *)

(** The one-character string ['\n']. *)
Definition nl : string := String (ascii_of_nat 10) EmptyString.

(** [c * n] for a string [c]. *)
Fixpoint str_repeat (c : string) (n : nat) : string :=
  match n with
  | O => ""
  | S k => c +:+ str_repeat c k
  end.

(** [s.split(c)] for a one-character separator. *)
Fixpoint str_split (c : ascii) (s : string) : list string :=
  match s with
  | EmptyString => [ "" ]
  | String a rest =>
      if Ascii.eqb a c then "" :: str_split c rest
      else match str_split c rest with
           | [] => [ String a "" ]
           | w :: ws => String a w :: ws
           end
  end.

(** [sep.join(l)]. *)
Definition str_join (sep : string) (l : list string) : string :=
  String.concat sep l.

(** Truth value of an optional string: [None] and [''] are false. *)
Definition truthy (o : option string) : bool :=
  match o with
  | Some (String _ _) => true
  | _ => false
  end.

(** ** Python objects met as module members *)

Inductive pyobj : Type :=
| ObjClass (mro : list string) (module : option string) (doc : option string)
    (** a class; [mro] names the classes of its [__mro__]; its own type is
        a metaclass, which derives from [type] *)
| ObjModule (name : string) (doc : option string)
    (** a module object; it has no [__module__] attribute *)
| ObjFunction (module : option string) (doc : option string)
    (** a plain Python function *)
| ObjInstance (type_mro : list string) (module : option string)
    (doc : option string)
    (** any other object, with the [__mro__] of its type *).

Definition inspect_isclass (m : pyobj) : bool :=
  match m with ObjClass _ _ _ => true | _ => false end.

Definition inspect_ismodule (m : pyobj) : bool :=
  match m with ObjModule _ _ => true | _ => false end.

Definition inspect_isfunction (m : pyobj) : bool :=
  match m with ObjFunction _ _ => true | _ => false end.

Definition mro_has (c : string) (mro : list string) : bool :=
  existsb (String.eqb c) mro.

(** [isinstance(m, BaseException)]: the type of [m] derives from
    [BaseException].  The type of a class is its metaclass, and no
    metaclass derives from [BaseException]. *)
Definition isinstance_BaseException (m : pyobj) : bool :=
  match m with
  | ObjInstance type_mro _ _ => mro_has "BaseException" type_mro
  | _ => false
  end.

(** [issubclass(m, BaseException)] for a class [m]: what makes a class an
    exception type. *)
Definition is_exception_type (m : pyobj) : bool :=
  match m with
  | ObjClass mro _ _ => mro_has "BaseException" mro
  | _ => false
  end.

(** [getattr(m, '__module__', default)]. *)
Definition getattr_module (m : pyobj) (default : string) : string :=
  match m with
  | ObjClass _ (Some x) _ | ObjFunction (Some x) _
  | ObjInstance _ (Some x) _ => x
  | _ => default
  end.

(** [getattr(m, '__doc__', None)]. *)
Definition getattr_doc (m : pyobj) : option string :=
  match m with
  | ObjClass _ _ d | ObjModule _ d | ObjFunction _ d
  | ObjInstance _ _ d => d
  end.

(** ** Modules *)

(** A module as the walk sees it.  [mod_path] is [None] when the module
    has no [__path__]; for a package it lists what
    [pkgutil.iter_modules(mod.__path__, prefix)] yields, each name with
    the module that [importlib.import_module] returns for it. *)
#[local] Unset Elimination Schemes.
Inductive pymodule : Type := PyModule {
  mod_name : string;
  mod_doc : option string;
  mod_path : option (list (string * pymodule));
  mod_dict : list (string * pyobj)
}.
#[local] Set Elimination Schemes.

Definition module_obj (m : pymodule) : pyobj :=
  ObjModule (mod_name m) (mod_doc m).

(** ** Host services *)

Record Host : Type := {
  (** [re.match(pattern, s)] returns a match *)
  re_match : string → string → bool;
  (** [re.search(pattern, s)] returns a match *)
  re_search : string → string → bool;
  (** [sphinx.util.rst.escape] *)
  rst_escape : string → string;
  (** [os.path.normpath] *)
  normpath : string → string;
  (** [documenter.parse_name() and documenter.import_object()] for the
      documenter of a module *)
  documenter_import : pymodule → bool;
  (** the attribute docstrings of [ModuleAnalyzer.find_attr_docs()] *)
  find_attr_docs : pymodule → list ((string * string) * list string);
  (** the names of [documenter.get_object_members(want_all=True)[1]] *)
  get_object_members : pymodule → list string;
  (** [documenter.filter_members(members, want_all=True)] *)
  filter_members :
    pymodule → list (string * pyobj) → list (string * pyobj * bool);
  (** [app.config['autodoc_default_options'].get('imported-members', False)] *)
  imported_members : bool
}.

(** ** Configuration *)

(** Values of an autodoc options dictionary. *)
Inductive pyval : Type :=
| VNone
| VBool (b : bool)
| VStr (s : string)
| VInt (n : Z).

(** An options dictionary, in insertion order. *)
Definition options : Type := list (string * pyval).

(** [autodoc_options_decider]: a callback
    [(app, what, fullname, obj, docstring, defaultOptions, extra)] (the
    application and [extra], which is always [None], are left out), or a
    dictionary from full names to options.  [defaultOptions] is a
    dictionary object that the callback may edit in place: a call gives
    the dictionary as the callback leaves it, and the value returned. *)
Inductive decider : Type :=
| DeciderFun
    (f : string → string → pyobj → option string → options →
         options * option options)
| DeciderDict (d : list (string * option options)).

Record Config : Type := {
  modules : list pymodule;
  generated_source_dir : string;
  overwrite_generated_source_rsts : bool;
  skip_module_regex : option string;
  skip_on_docstring_regex : option string;
  module_title_decider : string → string;
  autodoc_options_decider : decider;
  write_documented_items_output_file : option string
}.

(** The defaults of [AutoDocGen.Config], for the given root modules. *)
Definition default_config (mods : list pymodule) : Config := {|
  modules := mods;
  generated_source_dir := "autodocgen/";
  overwrite_generated_source_rsts := true;
  skip_module_regex := Some ".+[.]_.*";
  skip_on_docstring_regex := Some ":meta private:";
  module_title_decider := λ modulename, modulename;
  autodoc_options_decider :=
    DeciderFun (λ _ _ _ _ defaultOptions,
                  (defaultOptions, Some defaultOptions));
  write_documented_items_output_file := None
|}.

Definition member_underline : string := "=".
Definition module_underline : string := "~".

Definition doc_module_member_types : list string :=
  [ "module"; "data"; "class"; "exception"; "function" ].

Definition autosummary_member_types : list string := [ "module" ].

Definition str_in (x : string) (l : list string) : bool :=
  existsb (String.eqb x) l.

(** ** Session state, exceptions and the monad of the methods *)

Inductive exn : Type :=
| AssertionError (msg : string)
| TypeError (msg : string).

Inductive outcome (A : Type) : Type :=
| Return (a : A)
| Raise (e : exn).
Arguments Return {A} a.
Arguments Raise {A} e.

(** The operations on the generated directory, as a ghost trace. *)
Inductive fs_event : Type :=
| EvWriteRst (file content : string)   (** [f.write(rst)] of [visit_module] *)
| EvRemove (file : string)             (** [os.remove] of [generate] *)
| EvWriteItems (file content : string) (** the documented-items listing *).

Record session : Type := Session {
  files : gmap string string;        (** entries of the generated directory *)
  rst_files_generated : gset string; (** [self.rst_files_generated] *)
  documented_items : gset string;    (** [self.documented_items] *)
  trace : list fs_event              (** oldest operation first *)
}.

Definition M (A : Type) : Type := session → outcome A * session.

Definition ret {A} (a : A) : M A := λ s, (Return a, s).
Definition raise {A} (e : exn) : M A := λ s, (Raise e, s).
Definition bind {A B} (m : M A) (k : A → M B) : M B :=
  λ s, match m s with
       | (Return a, s') => k a s'
       | (Raise e, s') => (Raise e, s')
       end.
Definition lift {A} (o : outcome A) : M A := λ s, (o, s).
Definition modify (f : session → session) : M unit := λ s, (Return tt, f s).
Definition gets {A} (f : session → A) : M A := λ s, (Return (f s), s).

Notation "'let!' x ':=' m 'in' k" := (bind m (λ x, k))
  (at level 10, x pattern, m at level 100, k at level 200).
Notation "'do!' m 'in' k" := (bind m (λ _, k))
  (at level 10, m at level 100, k at level 200).

Definition add_documented_item (item : string) : M unit :=
  modify (λ s, Session (files s) (rst_files_generated s)
                 ({[ item ]} ∪ documented_items s) (trace s)).

Definition add_rst_file_generated (f : string) : M unit :=
  modify (λ s, Session (files s) ({[ f ]} ∪ rst_files_generated s)
                 (documented_items s) (trace s)).

(** [open(path, 'w').write(content)] on an entry of the generated
    directory, recorded in the trace as [ev]. *)
Definition write_file (f content : string) (ev : fs_event) : M unit :=
  modify (λ s, Session (<[ f := content ]> (files s)) (rst_files_generated s)
                 (documented_items s) (trace s ++ [ ev ])).

Definition remove_file (f : string) : M unit :=
  modify (λ s, Session (delete f (files s)) (rst_files_generated s)
                 (documented_items s) (trace s ++ [ EvRemove f ])).

(** A member as it is stored in [membersByType]:
    [(qualified name, object, docstring)]. *)
Definition member : Type := string * pyobj * option string.

(** [membersByType]: a dictionary from member type to members, in
    insertion order. *)
Definition members_by_type : Type := list (string * list member).

(** [membersByType[mtype].append(x)]. *)
Fixpoint mbt_append (mtype : string) (x : member) (mbt : members_by_type)
  : members_by_type :=
  match mbt with
  | [] => []
  | (t, l) :: rest =>
      if String.eqb t mtype then (t, l ++ [ x ]) :: rest
      else (t, l) :: mbt_append mtype x rest
  end.

Fixpoint dict_get {V} (k : string) (d : list (string * V)) : option V :=
  match d with
  | [] => None
  | (k', v) :: rest => if String.eqb k' k then Some v else dict_get k rest
  end.

Definition dict_has {V} (k : string) (d : list (string * V)) : bool :=
  match dict_get k d with Some _ => true | None => false end.

(** What the submodule loop of [visit_module] iterates over. *)
Definition submodules (m : pymodule) : list (string * pymodule) :=
  match m with
  | PyModule _ _ (Some subs) _ => subs
  | PyModule _ _ None _ => []
  end.

Definition empty_session : session := Session ∅ ∅ ∅ [].

(** ** A concrete host

    A small model of the host services, to run the generator on concrete
    module trees: regular expressions with literals, [.], one-character
    classes [[c]] and the postfix operators [*] and [+] (enough for the
    patterns of the defaults), [posixpath.normpath], the escaping rule of
    [sphinx.util.rst.escape], and a documenter that permits every name of
    [__dict__] that does not start with an underscore. *)
Module Demo.

Inductive atom : Type := AnyChar | Lit (c : ascii).
Inductive quant : Type := Once | Star | Plus.
Inductive pstate : Type := Normal | Open | Inside (c : ascii).

Definition requant (q : quant) (acc : list (atom * quant))
  : list (atom * quant) :=
  match acc with
  | (a, _) :: rest => (a, q) :: rest
  | [] => []
  end.

(** Reads a pattern from left to right; [acc] holds the items read so
    far, the last one first. *)
Fixpoint parse (st : pstate) (acc : list (atom * quant)) (p : string)
  : list (atom * quant) :=
  match p with
  | EmptyString => rev acc
  | String c rest =>
      match st with
      | Open => parse (Inside c) acc rest
      | Inside x => parse Normal ((Lit x, Once) :: acc) rest
      | Normal =>
          if Ascii.eqb c "[" then parse Open acc rest
          else if Ascii.eqb c "." then
            parse Normal ((AnyChar, Once) :: acc) rest
          else if Ascii.eqb c "*" then parse Normal (requant Star acc) rest
          else if Ascii.eqb c "+" then parse Normal (requant Plus acc) rest
          else parse Normal ((Lit c, Once) :: acc) rest
      end
  end.

Definition atom_ok (a : atom) (c : ascii) : bool :=
  match a with
  | AnyChar => negb (Ascii.eqb c (ascii_of_nat 10))
  | Lit x => Ascii.eqb x c
  end.

(** Does a prefix of [s] match the items? *)
Fixpoint match_here (items : list (atom * quant)) (s : string) : bool :=
  match items with
  | [] => true
  | (a, q) :: rest =>
      let star :=
        fix star (s : string) : bool :=
          match_here rest s
          || match s with
             | String c s' => atom_ok a c && star s'
             | EmptyString => false
             end in
      match q with
      | Star => star s
      | Once =>
          match s with
          | String c s' => atom_ok a c && match_here rest s'
          | EmptyString => false
          end
      | Plus =>
          match s with
          | String c s' => atom_ok a c && star s'
          | EmptyString => false
          end
      end
  end.

Definition re_match (pattern s : string) : bool :=
  match_here (parse Normal [] pattern) s.

Fixpoint search_from (items : list (atom * quant)) (s : string) : bool :=
  match_here items s
  || match s with
     | String _ s' => search_from items s'
     | EmptyString => false
     end.

Definition re_search (pattern s : string) : bool :=
  search_from (parse Normal [] pattern) s.

(** The characters of [[!-\-/:-@\[-`{-~]]. *)
Definition is_symbol (c : ascii) : bool :=
  let n := nat_of_ascii c in
  (Nat.leb 33 n && Nat.leb n 45) || Nat.eqb n 47
  || (Nat.leb 58 n && Nat.leb n 64) || (Nat.leb 91 n && Nat.leb n 96)
  || (Nat.leb 123 n && Nat.leb n 126).

Fixpoint escape_symbols (text : string) : string :=
  match text with
  | EmptyString => ""
  | String c rest =>
      if is_symbol c then String "\" (String c (escape_symbols rest))
      else String c (escape_symbols rest)
  end.

Definition rst_escape (text : string) : string :=
  match escape_symbols text with
  | String "." rest => String "\" (String "." rest)
  | t => t
  end.

Definition starts_with (p s : string) : bool := String.prefix p s.

(** [posixpath.normpath]. *)
Definition normpath (path : string) : string :=
  match path with
  | EmptyString => "."
  | _ =>
      let initial_slashes :=
        if starts_with "/" path then
          if starts_with "//" path && negb (starts_with "///" path)
          then 2 else 1
        else 0 in
      let step (new_comps : list string) (comp : string) :=
        if String.eqb comp "" || String.eqb comp "." then new_comps
        else if negb (String.eqb comp "..")
                || (Nat.eqb initial_slashes 0
                    && Nat.eqb (length new_comps) 0)
                || String.eqb (List.last new_comps "") ".."
        then new_comps ++ [ comp ]
        else removelast new_comps in
      let comps := fold_left step (str_split "/" path) [] in
      match str_repeat "/" initial_slashes +:+ str_join "/" comps with
      | EmptyString => "."
      | p => p
      end
  end.

(** [posixpath.abspath] in the current directory [cwd], an absolute
    path without a final slash: a relative path is joined to [cwd]. *)
Definition abspath (cwd path : string) : string :=
  normpath (if starts_with "/" path then path else cwd +:+ "/" +:+ path).

(** A host whose documenter fails on the modules named in [broken],
    with the attribute docstrings [attr_docs] in every module. *)
Definition host (broken : list string)
    (attr_docs : list ((string * string) * list string)) : Host :=
  Build_Host re_match re_search rst_escape normpath
    (λ m, negb (str_in (mod_name m) broken))
    (λ _, attr_docs)
    (λ m, map fst (mod_dict m))
    (λ _ members,
       map (λ '(mname, m),
              (mname, m,
               dict_has mname (map (λ x, (x.1.2, x.2)) attr_docs)))
         (filter (λ x, negb (String.prefix "_" x.1) = true) members))
    false.

(** The example of the specification: package [pkg] with the submodule
    [pkg.sub], which defines the function [f]. *)
Definition pkg_sub : pymodule :=
  PyModule "pkg.sub" None None
    [ ("f", ObjFunction (Some "pkg.sub") (Some "Does f.")) ].

Definition pkg : pymodule :=
  PyModule "pkg" (Some "The package.") (Some [ ("pkg.sub", pkg_sub) ]) [].

(** A module that defines nothing. *)
Definition pkg_empty : pymodule := PyModule "pkg.empty" None None [].

(** A module that defines an exception class. *)
Definition MyError : pyobj :=
  ObjClass [ "MyError"; "Exception"; "BaseException"; "object" ]
    (Some "pkg.errors") (Some "Raised on failure.").

Definition pkg_errors : pymodule :=
  PyModule "pkg.errors" None None [ ("MyError", MyError) ].

(** A package whose name starts with an underscore, and its submodule. *)
Definition pkg_private : pymodule :=
  PyModule "pkg._private" None
    (Some [ ("pkg._private.impl",
             PyModule "pkg._private.impl" None None
               [ ("g", ObjFunction (Some "pkg._private.impl") None) ]) ])
    [].

(** A configuration whose decider gives every item the options
    [opts]. *)
Definition config_with_options (mods : list pymodule) (opts : option options)
  : Config := {|
  modules := mods;
  generated_source_dir := "autodocgen/";
  overwrite_generated_source_rsts := true;
  skip_module_regex := Some ".+[.]_.*";
  skip_on_docstring_regex := Some ":meta private:";
  module_title_decider := λ modulename, modulename;
  autodoc_options_decider :=
    DeciderFun (λ _ _ _ _ defaultOptions, (defaultOptions, opts));
  write_documented_items_output_file := None
|}.

(** The default configuration with another decider. *)
Definition config_with_decider (mods : list pymodule) (d : decider)
  : Config := {|
  modules := mods;
  generated_source_dir := "autodocgen/";
  overwrite_generated_source_rsts := true;
  skip_module_regex := Some ".+[.]_.*";
  skip_on_docstring_regex := Some ":meta private:";
  module_title_decider := λ modulename, modulename;
  autodoc_options_decider := d;
  write_documented_items_output_file := None
|}.

(** The default configuration with another generated directory. *)
Definition config_with_directory (mods : list pymodule) (dir : string)
  : Config := {|
  modules := mods;
  generated_source_dir := dir;
  overwrite_generated_source_rsts := true;
  skip_module_regex := Some ".+[.]_.*";
  skip_on_docstring_regex := Some ":meta private:";
  module_title_decider := λ modulename, modulename;
  autodoc_options_decider :=
    DeciderFun (λ _ _ _ _ defaultOptions,
                  (defaultOptions, Some defaultOptions));
  write_documented_items_output_file := None
|}.

(** The callback
    [def decider(app, what, fullname, obj, docstring, defaultOptions,
    extra): defaultOptions['private-members'] = True], which edits the
    dictionary it is passed and returns [None]. *)
Definition sets_private_members : decider :=
  DeciderFun (λ _ _ _ _ defaultOptions,
                (defaultOptions ++ [ ("private-members", VBool true) ],
                 None)).

(** The default configuration, with an overwrite policy and a file for
    the listing of documented items. *)
Definition config_with_listing (mods : list pymodule) (overwrite : bool)
    (file : option string) : Config := {|
  modules := mods;
  generated_source_dir := "autodocgen/";
  overwrite_generated_source_rsts := overwrite;
  skip_module_regex := Some ".+[.]_.*";
  skip_on_docstring_regex := Some ":meta private:";
  module_title_decider := λ modulename, modulename;
  autodoc_options_decider :=
    DeciderFun (λ _ _ _ _ defaultOptions,
                  (defaultOptions, Some defaultOptions));
  write_documented_items_output_file := file
|}.

(** A module whose documenter fails under [host [ "pkg.broken" ] _]. *)
Definition pkg_broken : pymodule := PyModule "pkg.broken" None None [].

(** A generated directory with the given entries. *)
Definition directory (entries : list (string * string)) : session :=
  Session (list_to_map entries) ∅ ∅ [].

(** What is rendered for [pkg.sub], [pkg], [pkg.empty] and
    [pkg.errors] under the defaults. *)
Definition pkg_sub_rst : string := "
pkg.sub
~~~~~~~

.. automodule:: pkg.sub

.. currentmodule:: pkg.sub



f
=

.. autofunction:: f
".

Definition pkg_rst : string := "
pkg
~~~

.. automodule:: pkg

.. currentmodule:: pkg


.. autosummary::
  :toctree: ./

  pkg.sub".

Definition pkg_empty_rst : string := "
pkg.empty
~~~~~~~~~

.. automodule:: pkg.empty

.. currentmodule:: pkg.empty

".

Definition pkg_errors_rst : string := "
pkg.errors
~~~~~~~~~~

.. automodule:: pkg.errors

.. currentmodule:: pkg.errors



MyError
=======

.. autoclass:: MyError
   :members:
".
End Demo.

(** ** More inputs *)
Module More.

Definition f : pyobj := ObjFunction (Some "lib.api") (Some "Does f.").

(** A function of another module, imported into [lib.api]. *)
Definition imported : pyobj := ObjFunction (Some "os.path") None.

Definition lib_api : pymodule :=
  PyModule "lib.api" None None [ ("f", f); ("join", imported) ].

Definition lib_impl : pymodule :=
  PyModule "lib._impl" None None
    [ ("g", ObjFunction (Some "lib._impl") None) ].

Definition lib_util : pymodule := PyModule "lib.util" None None [].

(** A package with a public, a private and an empty submodule. *)
Definition lib : pymodule :=
  PyModule "lib" None
    (Some [ ("lib.api", lib_api); ("lib._impl", lib_impl);
            ("lib.util", lib_util) ])
    [].

(** The dictionary of [lib.api] after the member loop. *)
Definition lib_api_members : members_by_type :=
  [ ("module", []); ("data", []); ("class", []); ("exception", []);
    ("function", [ ("lib.api.f", f, Some "Does f.") ]) ].

Definition lib_api_rst : string := "
lib.api
~~~~~~~

.. automodule:: lib.api

.. currentmodule:: lib.api



f
=

.. autofunction:: f
".
End More.

(** ** The generator *)

Section AutoDocGen.
Variable host : Host.
Variable config : Config.

(** *** [get_module_member_rst] *)

(** [self.config['autodoc_options_decider'](...)], where [generate] has
    replaced a dictionary by the callback that looks the full name up
    and falls back on [defaultOptions].  The first component is the
    dictionary [defaultOptions] after the call, the second is the value
    returned. *)
Definition call_decider (what fullname : string) (obj : pyobj)
    (docstring : option string) (defaultOptions : options)
  : options * option options :=
  match autodoc_options_decider config with
  | DeciderFun f => f what fullname obj docstring defaultOptions
  | DeciderDict optionsdict =>
      (defaultOptions,
       match dict_get fullname optionsdict with
       | Some o => o
       | None => Some defaultOptions
       end)
  end.

(** The loop [for k, v in autodocoptions.items()], started on [result]. *)
Fixpoint append_options (autodocoptions : options) (result : string)
  : outcome string :=
  match autodocoptions with
  | [] => Return result
  | (k, v) :: rest =>
      match v with
      | VBool false => append_options rest result
      | VNone | VBool true =>
          append_options rest (result +:+ "   :" +:+ k +:+ ":" +:+ nl)
      | VStr s =>
          append_options rest
            (result +:+ "   :" +:+ k +:+ ":" +:+ " " +:+ s +:+ nl)
      | VInt _ => Raise (TypeError "can only concatenate str to str")
      end
  end.

Definition member_defaults (memberType : string) : options :=
  [ ("members", VBool (str_in memberType [ "class"; "exception" ])) ].

(** The text of the template, before the options. *)
Definition member_heading (memberType qualifiedName : string) : string :=
  let name := List.last (str_split "." qualifiedName) "" in
  nl +:+ rst_escape host name +:+ nl
     +:+ str_repeat member_underline (String.length (rst_escape host name))
     +:+ nl +:+ nl
     +:+ ".. auto" +:+ memberType +:+ ":: " +:+ name +:+ nl.

Definition get_module_member_rst (memberType qualifiedName : string)
    (obj : pyobj) (docstring : option string) : outcome string :=
  let result := member_heading memberType qualifiedName in
  let defaults := member_defaults memberType in
  let '(defaults, autodocoptions) :=
    call_decider memberType qualifiedName obj docstring defaults in
  let autodocoptions :=
    match autodocoptions with
    | None => defaults
    | Some o => o
    end in
  append_options autodocoptions result.

(** *** [generate_member_type_rst] *)

(** The generator [get_module_member_rst(memberType, ...) for ... in
    members], consumed by [join]: the first exception ends it. *)
Fixpoint member_rsts (memberType : string) (members : list member)
  : outcome (list string) :=
  match members with
  | [] => Return []
  | (mname, m, docstring) :: rest =>
      match get_module_member_rst memberType mname m docstring with
      | Raise e => Raise e
      | Return r =>
          match member_rsts memberType rest with
          | Raise e => Raise e
          | Return rs => Return (r :: rs)
          end
      end
  end.

(** The loop [for mname, m, _ in members: self.documented_items.add(...)]. *)
Fixpoint add_documented_members (memberType : string)
    (members : list member) : M unit :=
  match members with
  | [] => ret tt
  | (mname, _, _) :: rest =>
      do! add_documented_item (mname +:+ " (" +:+ memberType +:+ ")") in
      add_documented_members memberType rest
  end.

Definition generate_member_type_rst (module : pymodule)
    (memberType : string) (members : list member) : M string :=
  do! add_documented_members memberType members in
  if str_in memberType autosummary_member_types then
    ret (str_join nl
           ([ ".. autosummary::"; "  :toctree: ./"; "" ]
            ++ map (λ '(name, _, _), "  " +:+ name) members))
  else
    let! rsts := lift (member_rsts memberType members) in
    ret (str_join nl rsts).

(** *** [generate_module_rst] *)

(** The text of the module template. *)
Definition module_heading (module_fullname : string) : string :=
  let title := module_title_decider config module_fullname in
  nl +:+ rst_escape host title +:+ nl
     +:+ str_repeat module_underline (String.length (rst_escape host title))
     +:+ nl +:+ nl
     +:+ ".. automodule:: " +:+ module_fullname +:+ nl +:+ nl
     +:+ ".. currentmodule:: " +:+ module_fullname +:+ nl +:+ nl.

(** The loop [for memberType, members in membersByType.items()]. *)
Fixpoint append_sections (module : pymodule) (items : members_by_type)
    (output : string) : M string :=
  match items with
  | [] => ret output
  | (memberType, members) :: rest =>
      match members with
      | [] => append_sections module rest output
      | _ :: _ =>
          let! extra := generate_member_type_rst module memberType members in
          if truthy (Some extra)
          then append_sections module rest (output +:+ nl +:+ extra)
          else append_sections module rest output
      end
  end.

(** [None] is the Python [None] that is returned for an empty
    dictionary. *)
Definition generate_module_rst (module : pymodule)
    (membersByType : members_by_type) : M (option string) :=
  match membersByType with
  | [] => ret None
  | _ :: _ =>
      let module_fullname := mod_name module in
      do! add_documented_item (module_fullname +:+ " (module)") in
      let output := module_heading module_fullname in
      let! output := append_sections module membersByType output in
      ret (Some output)
  end.

(** *** [visit_module] *)

(** The two skip rules at the head of [visit_module]. *)
Definition skipped (module : pymodule) : bool :=
  let modulename := mod_name module in
  let skipped :=
    truthy (skip_module_regex config)
    && re_match host (default "" (skip_module_regex config)) modulename in
  let skip_on_docstring_regex := skip_on_docstring_regex config in
  if truthy skip_on_docstring_regex
     && (truthy (mod_doc module)
         && re_search host (default "" skip_on_docstring_regex)
              (default "" (mod_doc module)))
  then true
  else skipped.

(** Truth value of what [visit_module] returns: [False], [None] or
    [True]. *)
Definition py_bool (r : option bool) : bool :=
  match r with
  | Some b => b
  | None => false
  end.

(** [{t:[] for t in doc_module_member_types}]. *)
Definition empty_members_by_type : members_by_type :=
  map (λ t, (t, [])) doc_module_member_types.

(** The loop over [pkgutil.iter_modules], for a visit function [visit]. *)
Definition visit_submodules (visit : pymodule → M (option bool))
  : list (string * pymodule) → members_by_type → M members_by_type :=
  fix loop subs membersByType :=
    match subs with
    | [] => ret membersByType
    | (submodulename, submodule) :: rest =>
        let! r := visit submodule in
        if negb (py_bool r) then loop rest membersByType
        else if dict_has "module" membersByType
        then loop rest
               (mbt_append "module"
                  (submodulename, module_obj submodule, mod_doc submodule)
                  membersByType)
        else loop rest membersByType
    end.

(** The chain [if isattr ... elif inspect.isclass(m) ... else] that
    chooses [mtype]; [None] stands for [continue]. *)
Definition member_type (m : pyobj) (isattr : bool) : option string :=
  if isattr then Some "data"
  else if inspect_isclass m then
    if isinstance_BaseException m then Some "exception" else Some "class"
  else if inspect_ismodule m then None
  else if inspect_isfunction m then Some "function"
  else None.

(** [attr_docs[('', mname)]], when the key is present. *)
Fixpoint attr_docs_get (mname : string)
    (attr_docs : list ((string * string) * list string))
  : option (list string) :=
  match attr_docs with
  | [] => None
  | ((ns, n), lines) :: rest =>
      if String.eqb ns "" && String.eqb n mname then Some lines
      else attr_docs_get mname rest
  end.

(** One iteration of the loop over [documenter.filter_members(...)]. *)
Definition visit_member (module : pymodule)
    (membersByType : members_by_type) (x : string * pyobj * bool)
  : members_by_type :=
  let '(mname, m, isattr) := x in
  let modulename := mod_name module in
  if negb isattr && negb (imported_members host)
     && negb (String.eqb (getattr_module m modulename) modulename)
  then membersByType
  else
    match member_type m isattr with
    | None => membersByType
    | Some mtype =>
        let docstring :=
          match attr_docs_get mname (find_attr_docs host module) with
          | Some lines => Some (str_join nl lines)
          | None => getattr_doc m
          end in
        if truthy (skip_on_docstring_regex config)
           && truthy docstring
           && re_search host (default "" (skip_on_docstring_regex config))
                (default "" docstring)
        then membersByType
        else mbt_append mtype (modulename +:+ "." +:+ mname, m, docstring)
               membersByType
    end.

(** The members of [mod.__dict__] that the documenter permits. *)
Definition permitted_members (module : pymodule) : list (string * pyobj) :=
  filter (λ x, str_in x.1 (get_object_members host module) = true)
    (mod_dict module).

(** The name of the entry of the generated directory for a module:
    [os.path.basename(rstfile)].  Module names are dotted names and hold
    no path separator. *)
Definition rst_basename (module : pymodule) : string :=
  mod_name module +:+ ".rst".

(** The end of [visit_module], from [rstfile = ...] on. *)
Definition write_rst (module : pymodule) (rst : string) : M (option bool) :=
  let rstfile := rst_basename module in
  do! add_rst_file_generated rstfile in
  let! existing := gets (λ s, files s !! rstfile) in
  let untouched :=
    match existing with
    | Some content =>
        String.eqb content rst
        || negb (overwrite_generated_source_rsts config)
    | None => false
    end in
  if untouched then ret (Some true)
  else
    do! write_file rstfile rst (EvWriteRst rstfile rst) in
    ret (Some true).

(** [visit_module] from the documenter to [generate_module_rst]:
    imports the module, collects its members by type and renders
    them. *)
Definition document_module (module : pymodule)
    (membersByType : members_by_type) : M (option string) :=
  if negb (documenter_import host module) then
    raise (AssertionError
             ("documenter failed to import module " +:+ mod_name module))
  else
    let members := permitted_members module in
    let membersByType :=
      fold_left (visit_member module) (filter_members host module members)
        membersByType in
    generate_module_rst module membersByType.

(** [None] is the Python [None] of the bare [return]. *)
Fixpoint visit_module (module : pymodule) : M (option bool) :=
  if skipped module then ret (Some false)
  else
    let! membersByType :=
      match module with
      | PyModule _ _ (Some subs) _ =>
          visit_submodules visit_module subs empty_members_by_type
      | PyModule _ _ None _ => ret empty_members_by_type
      end in
    let! rst := document_module module membersByType in
    match rst with
    | Some (String _ _ as rst) => write_rst module rst
    | _ => ret None
    end.

(** The modules that a visit of [module] reaches and does not skip, each
    after its submodules. *)
Fixpoint visited (module : pymodule) : list pymodule :=
  if skipped module then []
  else
    match module with
    | PyModule _ _ (Some subs) _ => flat_map (λ p, visited p.2) subs
    | PyModule _ _ None _ => []
    end ++ [ module ].

(** What a visit of a module that is not skipped computes before
    [rstfile = ...]: the text [rst]. *)
Definition module_rst (module : pymodule) : M (option string) :=
  let! membersByType :=
    visit_submodules visit_module (submodules module)
      empty_members_by_type in
  document_module module membersByType.

(** *** [generate] *)

(** The loop [for mod in modules: self.visit_module(mod)]. *)
Fixpoint visit_modules (mods : list pymodule) : M unit :=
  match mods with
  | [] => ret tt
  | module :: rest => do! visit_module module in visit_modules rest
  end.

Fixpoint remove_files (fs : list string) : M unit :=
  match fs with
  | [] => ret tt
  | f :: rest => do! remove_file f in remove_files rest
  end.

(** [items.sort()] on strings. *)
Definition sorted_items (items : gset string) : list string :=
  merge_sort String.le (elements items).

(** [generate].  The session holds the entries of [generated_source_dir];
    the listing is opened at [os.path.join(generated_source_dir, file)],
    which is the entry [file] of that directory when [file] is a plain
    file name.  [os.remove] and [open] are taken to succeed. *)
Definition generate : M unit :=
  let generated_dir := generated_source_dir config in
  if String.eqb (normpath host generated_dir) (normpath host ".") then
    raise (AssertionError
             "Cannot use current path as generated_source_dir - everything would be wiped out!")
  else
    match modules config with
    | [] => raise (AssertionError "no modules")
    | _ :: _ =>
        do! modify (λ s, Session (files s) ∅ ∅ (trace s)) in
        do! visit_modules (modules config) in
        let! stale :=
          gets (λ s, elements (dom (files s) ∖ rst_files_generated s)) in
        do! remove_files stale in
        match write_documented_items_output_file config with
        | Some (String _ _ as file) =>
            let! items := gets (λ s, sorted_items (documented_items s)) in
            let content := String.concat "" (map (λ m, m +:+ nl) items) in
            write_file file content (EvWriteItems file content)
        | _ => ret tt
        end
    end.

(** ** Notions of the statements *)

(** The line that one option contributes, by the rule: boolean false is
    left out, boolean true and [None] give the bare flag, a string gives
    the flag with the value. *)
Definition option_line (kv : string * pyval) : string :=
  match kv.2 with
  | VBool false => ""
  | VBool true | VNone => "   :" +:+ kv.1 +:+ ":" +:+ nl
  | VStr value => "   :" +:+ kv.1 +:+ ": " +:+ value +:+ nl
  | VInt _ => ""
  end.

(** The values that the loop over the options can render. *)
Definition renderable (v : pyval) : Prop :=
  match v with
  | VInt _ => False
  | _ => True
  end.

(** The defaults, as the specification words them: all members for the
    class and exception kinds, none otherwise. *)
Definition stated_defaults (memberType : string) : options :=
  [ ("members",
     VBool (bool_decide (memberType = "class" ∨ memberType = "exception"))) ].

(** The name-pattern rule. *)
Definition skipped_by_name (module : pymodule) : Prop :=
  ∃ regex, skip_module_regex config = Some regex ∧ regex ≠ ""
           ∧ re_match host regex (mod_name module) = true.

(** The docstring-pattern rule. *)
Definition skipped_by_docstring (module : pymodule) : Prop :=
  ∃ regex doc, skip_on_docstring_regex config = Some regex ∧ regex ≠ ""
               ∧ mod_doc module = Some doc ∧ doc ≠ ""
               ∧ re_search host regex doc = true.

(** [D] added to the documented items. *)
Definition add_items (D : gset string) (s : session) : session :=
  Session (files s) (rst_files_generated s) (D ∪ documented_items s)
    (trace s).

(** The session after the ends of [visit_module] for the modules and
    texts of [calls], in this order. *)
Definition run_writes (calls : list (pymodule * string)) (s : session)
  : session :=
  fold_left (λ s c, (write_rst c.1 c.2 s).2) calls s.

(** [c] returns [v], having documented the items [D] and gone through
    the ends of [visit_module] for [calls], whatever the session. *)
Definition normal {A} (c : M A) (v : outcome A) (D : gset string)
    (calls : list (pymodule * string)) : Prop :=
  ∀ s, c s = (v, add_items D (run_writes calls s)).

(** The text that [visit_module] renders for a module that it does not
    skip. *)
Definition rst_of (module : pymodule) : outcome (option string) :=
  (module_rst module empty_session).1.

(** What a normal form of [visit_module] says about the walk: the texts
    are those of the modules, and when the visit returns it has gone
    through all the modules that it does not skip and returns [False]
    for a skipped module and [True] otherwise, never [None]. *)
Definition walk_spec (module : pymodule) (v : outcome (option bool))
    (calls : list (pymodule * string)) : Prop :=
  Forall (λ c, rst_of c.1 = Return (Some c.2)) calls
  ∧ ∀ r, v = Return r →
         r = Some (negb (skipped module))
         ∧ map fst calls = visited module.

Definition walked (module : pymodule) : Prop :=
  ∃ v D calls,
    normal (visit_module module) v D calls
    ∧ walk_spec module v calls.

(** The existing file is left as it is: its content is the rendered
    text, or existing files are not to be overwritten. *)
Definition left_untouched (module : pymodule) (rst : string) (s : session)
  : bool :=
  match files s !! rst_basename module with
  | Some content =>
      String.eqb content rst
      || negb (overwrite_generated_source_rsts config)
  | None => false
  end.

(** The entries that [calls] register. *)
Definition names (calls : list (pymodule * string)) : gset string :=
  list_to_set (map (λ c, rst_basename c.1) calls).

Definition remove_all (l : list string) (m : gmap string string)
  : gmap string string :=
  fold_left (λ m f, delete f m) l m.

(** The file of the documented-items listing, when one is configured. *)
Definition listing_file : option string :=
  match write_documented_items_output_file config with
  | Some (String c rest) => Some (String c rest)
  | _ => None
  end.

Definition listing (D : gset string) : string :=
  String.concat "" (map (λ m, m +:+ nl) (sorted_items D)).

(** The session in which the walk of a run starts. *)
Definition start_run (s : session) : session :=
  Session (files s) ∅ ∅ (trace s).

Definition stale_files (s : session) : list string :=
  elements (dom (files s) ∖ rst_files_generated s).

(** The session after the cleanup and the listing, from the session
    [s] at the end of the walk. *)
Definition end_run (s : session) : session :=
  let kept := remove_all (stale_files s) (files s) in
  match listing_file with
  | Some f =>
      Session (<[ f := listing (documented_items s) ]> kept)
        (rst_files_generated s) (documented_items s)
        (trace s ++ map EvRemove (stale_files s)
           ++ [ EvWriteItems f (listing (documented_items s)) ])
  | None =>
      Session kept (rst_files_generated s) (documented_items s)
        (trace s ++ map EvRemove (stale_files s))
  end.

(** The two checks of the configuration at the head of [generate]. *)
Definition config_accepted : Prop :=
  normpath host (generated_source_dir config) ≠ normpath host "."
  ∧ modules config ≠ [].

(** The file operations of the cleanup and the listing. *)
Definition end_events (s : session) : list fs_event :=
  map EvRemove (stale_files s)
  ++ match listing_file with
     | Some f => [ EvWriteItems f (listing (documented_items s)) ]
     | None => []
     end.

(** The modules that a run visits and does not skip. *)
Definition walk : list pymodule :=
  flat_map visited (modules config).

(** The file operations of a run, from the traces before and after. *)
Definition run_events (s s' : session) : list fs_event :=
  drop (length (trace s)) (trace s').


(** The configuration errors that [generate] checks first. *)
Definition fatal_configuration : Prop :=
  modules config = []
  ∨ normpath host (generated_source_dir config) = normpath host ".".

(** Introspection fails on a root module: the module is not skipped
    (the documenter is only made for such a module) and its documenter
    fails to import it. *)
Definition root_import_fails : Prop :=
  ∃ module, In module (modules config)
            ∧ skipped module = false
            ∧ documenter_import host module = false.

(** Calls for one entry render one text. *)
Definition consistent (calls : list (pymodule * string)) : Prop :=
  ∀ c c', In c calls → In c' calls →
          rst_basename c.1 = rst_basename c'.1 → c.2 = c'.2.

(** Every call finds its entry, and with the text to write when
    existing files are overwritten. *)
Definition settled (calls : list (pymodule * string))
    (m : gmap string string) : Prop :=
  ∀ c, In c calls →
       ∃ old, m !! rst_basename c.1 = Some old
              ∧ (overwrite_generated_source_rsts config = true
                 → old = c.2).

(** A name denotes one module in the walk, as it does for the import
    system. *)
Definition names_denote_modules : Prop :=
  ∀ m m', In m walk → In m' walk → mod_name m = mod_name m' → m = m'.

(** The listing of documented items is not written to the entry of a
    module. *)
Definition listing_apart : Prop :=
  ∀ m, In m walk → listing_file ≠ Some (rst_basename m).

(** [c in s] for a character [c]. *)
Fixpoint has_char (c : ascii) (s : string) : bool :=
  match s with
  | EmptyString => false
  | String a rest => Ascii.eqb a c || has_char c rest
  end.

(** A plain file name: it has no path separator and is neither the
    directory itself nor its parent, so that
    [os.path.join(generated_source_dir, f)] is the entry [f] of the
    generated directory. *)
Definition plain_file_name (f : string) : Prop :=
  has_char "/" f = false ∧ f ≠ "." ∧ f ≠ "..".

(** The listing of documented items is configured as a plain file
    name. *)
Definition listing_is_plain : Prop :=
  ∀ f, listing_file = Some f → plain_file_name f.

(** The second of two runs writes no per-module file. *)
Definition second_run_is_quiet (s1 s2 : session) : Prop :=
  files s2 = files s1
  ∧ ∀ f content, ¬ In (EvWriteRst f content) (run_events s1 s2).

(** ** Notions of the further properties *)

(** [posixpath.basename(p)]: what follows the last ['/'], which is the
    last element of [p.split('/')]. *)
Definition os_path_basename (p : string) : string :=
  List.last (str_split "/" p) "".

(** [rstfile] of [visit_module]:
    [self.config['generated_source_dir']+f'/{mod.__name__}.rst']. *)
Definition rstfile (module : pymodule) : string :=
  generated_source_dir config +:+ "/" +:+ mod_name module +:+ ".rst".

(** The options in effect for a member: what the decider returns for
    the defaults, or the dictionary of defaults as the decider leaves it
    when it returns [None]. *)
Definition options_in_effect (memberType qualifiedName : string)
    (obj : pyobj) (docstring : option string) : options :=
  let decided :=
    call_decider memberType qualifiedName obj docstring
      (member_defaults memberType) in
  default decided.1 decided.2.

(** The member passes the ownership check of [visit_module]: it is an
    attribute, or imported members are wanted, or its [__module__] is
    the module. *)
Definition owned (module : pymodule) (m : pyobj) (isattr : bool) : bool :=
  isattr || imported_members host
  || String.eqb (getattr_module m (mod_name module)) (mod_name module).

(** The docstring of a member: its attribute docstring when there is
    one, its [__doc__] otherwise. *)
Definition member_docstring (module : pymodule) (mname : string)
    (m : pyobj) : option string :=
  match attr_docs_get mname (find_attr_docs host module) with
  | Some lines => Some (str_join nl lines)
  | None => getattr_doc m
  end.

(** The docstring matches [skip_on_docstring_regex]. *)
Definition private_docstring (docstring : option string) : bool :=
  truthy (skip_on_docstring_regex config)
  && truthy docstring
  && re_search host (default "" (skip_on_docstring_regex config))
       (default "" docstring).

(** The member that an entry of [filter_members] contributes to the
    bucket [t], if any. *)
Definition retained (module : pymodule) (t : string)
    (x : string * pyobj * bool) : option member :=
  let '(mname, m, isattr) := x in
  let docstring := member_docstring module mname m in
  match member_type m isattr with
  | Some mtype =>
      if owned module m isattr && negb (private_docstring docstring)
         && String.eqb mtype t
      then Some (mod_name module +:+ "." +:+ mname, m, docstring)
      else None
  | None => None
  end.

(** The bucket of a kind has members. *)
Definition has_members (kv : string * list member) : bool :=
  match kv.2 with
  | [] => false
  | _ :: _ => true
  end.

(** The members that the submodule loop adds: one for each submodule
    that is not skipped. *)
Definition listed_submodules (subs : list (string * pymodule))
  : list member :=
  map (λ p, (p.1, module_obj p.2, mod_doc p.2))
    (List.filter (λ p, negb (skipped p.2)) subs).

(** The dictionary after the submodule loop. *)
Definition after_submodules (subs : list (string * pymodule))
    (membersByType : members_by_type) : members_by_type :=
  fold_left
    (λ acc p,
       if skipped p.2 then acc
       else if dict_has "module" acc
       then mbt_append "module" (p.1, module_obj p.2, mod_doc p.2) acc
       else acc)
    subs membersByType.

(** The entries of the generated directory for the modules of the
    walk. *)
Definition walk_files : gset string :=
  list_to_set (map rst_basename walk).

(** The entry of the listing, as a set. *)
Definition listing_entry : gset string :=
  match listing_file with
  | Some f => {[ f ]}
  | None => ∅
  end.

(** * Properties *)

(** Induction on the module tree, with the property available for every
    module that [pkgutil.iter_modules] lists. *)
Section pymodule_induction.
Variable P : pymodule → Prop.
Hypothesis P_module :
  ∀ m, Forall (λ p, P p.2) (submodules m) → P m.

Fixpoint pymodule_ind (m : pymodule) : P m.
Proof.
  destruct m as [name doc path dict]. apply P_module.
  destruct path as [l|]; simpl; [|constructor].
  induction l as [|[n sub] rest IH]; constructor;
    [apply pymodule_ind | exact IH].
Qed.
End pymodule_induction.

Ltac msimpl :=
  unfold bind, ret, raise, lift, modify, gets, add_documented_item,
    add_rst_file_generated, write_file, remove_file in *;
  simpl in *.

Lemma append_assoc (a b c : string) : (a +:+ b) +:+ c = a +:+ (b +:+ c).
Proof.
  induction a as [|x a IH]; [reflexivity|].
  change (String x ((a +:+ b) +:+ c) = String x (a +:+ (b +:+ c))).
  by rewrite IH.
Qed.

Lemma append_nil_r (a : string) : a +:+ "" = a.
Proof.
  induction a as [|x a IH]; [reflexivity|].
  change (String x (a +:+ "") = String x a). by rewrite IH.
Qed.

Lemma length_append (a b : string) :
  String.length (a +:+ b) = String.length a + String.length b.
Proof.
  induction a as [|x a IH]; [reflexivity|].
  change (S (String.length (a +:+ b)) = S (String.length a + String.length b)).
  by rewrite IH.
Qed.

Lemma append_inj_r (a b x : string) : a +:+ x = b +:+ x → a = b.
Proof.
  revert b. induction a as [|c a IH]; intros [|c' b] H; [done|..].
  - change (x = String c' (b +:+ x)) in H.
    apply (f_equal String.length) in H. simpl in H.
    rewrite length_append in H. lia.
  - change (String c (a +:+ x) = x) in H.
    apply (f_equal String.length) in H. simpl in H.
    rewrite length_append in H. lia.
  - change (String c (a +:+ x) = String c' (b +:+ x)) in H.
    injection H as -> H. by rewrite (IH b H).
Qed.

Lemma concat_empty_cons (x : string) (l : list string) :
  String.concat "" (x :: l) = x +:+ String.concat "" l.
Proof. destruct l; simpl; [by rewrite append_nil_r | reflexivity]. Qed.

(** ** Kinds of members *)

(** A member that is not dropped gets one kind, a key of
    [membersByType]. *)
Lemma member_type_kinds m isattr mtype :
  member_type m isattr = Some mtype →
  mtype ∈ [ "data"; "class"; "function" ]
  ∧ mtype ∈ doc_module_member_types.
Proof.
  unfold member_type, doc_module_member_types.
  destruct isattr, m; simpl; intros [= <-]; set_solver.
Qed.

(** [append] changes the bucket of [mtype], and no other. *)
Lemma mbt_append_bucket mtype x membersByType t :
  dict_get t (mbt_append mtype x membersByType)
  = if String.eqb t mtype
    then (λ l, l ++ [ x ]) <$> dict_get t membersByType
    else dict_get t membersByType.
Proof.
  induction membersByType as [|[k l] rest IH]; [by destruct (String.eqb _ _)|].
  simpl. destruct (String.eqb_spec k mtype) as [Hk|Hk]; simpl.
  - subst k. rewrite (String.eqb_sym t mtype).
    by destruct (String.eqb mtype t).
  - destruct (String.eqb_spec k t) as [Ht|Ht]; [|exact IH].
    subst k. by destruct (String.eqb_spec t mtype).
Qed.

(** No class is an instance of [BaseException]: the branch that
    chooses ['exception'] is never taken. *)
Lemma member_type_never_exception m isattr :
  member_type m isattr ≠ Some "exception".
Proof. unfold member_type. destruct isattr, m; simpl; congruence. Qed.

Lemma member_type_of_class mro module doc :
  member_type (ObjClass mro module doc) false = Some "class".
Proof. reflexivity. Qed.

(** ** Options of a member *)

Lemma append_options_lines (autodocoptions : options) (result : string) :
  Forall (λ kv, renderable kv.2) autodocoptions →
  append_options autodocoptions result
  = Return (result +:+ String.concat "" (map option_line autodocoptions)).
Proof.
  intros Hall. revert result.
  induction Hall as [|[k v] rest Hv _ IH]; intros result.
  - simpl. by rewrite append_nil_r.
  - rewrite map_cons, concat_empty_cons.
    destruct v as [|[]| |]; try done; simpl; rewrite IH; f_equal;
      unfold option_line; simpl; by rewrite ?append_assoc.
Qed.

Lemma member_defaults_stated memberType :
  member_defaults memberType = stated_defaults memberType.
Proof.
  unfold member_defaults, stated_defaults, str_in. simpl.
  do 3 f_equal. rewrite !orb_false_r.
  destruct (String.eqb_spec memberType "class") as [->|H1];
    [by rewrite bool_decide_eq_true_2; [|left]|].
  destruct (String.eqb_spec memberType "exception") as [->|H2];
    [by rewrite bool_decide_eq_true_2; [|right]|].
  rewrite bool_decide_eq_false_2; [done|]. by intros [?|?].
Qed.

(** C7 (amended).  The options of a member are what the configured
    decider returns for the defaults ([members] true for the class and
    exception kinds, false otherwise), or the dictionary of defaults,
    as the call leaves it, when it returns [None]; when every value is
    a boolean, [None] or a string, the rendered block is the heading
    followed by one line per option: nothing for boolean false, the
    bare flag [:name:] for boolean true and for [None], and
    [:name: value] for a string. *)
Theorem member_options_rendering (memberType qualifiedName : string)
    (obj : pyobj) (docstring : option string) :
  let decided :=
    call_decider memberType qualifiedName obj docstring
      (stated_defaults memberType) in
  let autodocoptions := default decided.1 decided.2 in
  Forall (λ kv, renderable kv.2) autodocoptions →
  get_module_member_rst memberType qualifiedName obj docstring
  = Return (member_heading memberType qualifiedName
            +:+ String.concat "" (map option_line autodocoptions)).
Proof.
  intros decided autodocoptions Hall.
  unfold get_module_member_rst. rewrite member_defaults_stated.
  fold decided. rewrite <-(append_options_lines autodocoptions); [|done].
  unfold autodocoptions. by destruct decided as [defaults [o|]].
Qed.

(** ** Skipped modules *)

Lemma visit_module_eq (module : pymodule) :
  visit_module module
  = if skipped module then ret (Some false)
    else
      let! membersByType :=
        visit_submodules (visit_module) (submodules module)
          empty_members_by_type in
      let! rst := document_module module membersByType in
      match rst with
      | Some (String _ _ as rst) => write_rst module rst
      | _ => ret None
      end.
Proof. by destruct module as [name doc [subs|] dict]. Qed.

Lemma visited_eq (module : pymodule) :
  visited module
  = if skipped module then []
    else flat_map (λ p, visited p.2) (submodules module)
         ++ [ module ].
Proof. by destruct module as [name doc [subs|] dict]. Qed.

Lemma skipped_rules (module : pymodule) :
  skipped module = true
  ↔ skipped_by_name module ∨ skipped_by_docstring module.
Proof.
  unfold skipped, skipped_by_name, skipped_by_docstring. split.
  - destruct (skip_on_docstring_regex config) as [[|c r]|],
      (mod_doc module) as [[|c' d]|]; simpl;
      try destruct (re_search host _ _) eqn:Hs; simpl;
      try (intros _; right; eexists _, _; by repeat split);
      destruct (skip_module_regex config) as [[|c'' r'']|]; simpl;
      try done; intros Hm; left; eexists; by repeat split.
  - intros [(regex & -> & Hne & Hm)|(regex & doc & -> & Hne & -> & Hd & Hs)].
    + destruct regex; [done|]. simpl. rewrite Hm.
      by destruct (_ && _).
    + destruct regex, doc; try done. simpl. by rewrite Hs.
Qed.

(** C3.  A module that the name-pattern rule or the docstring-pattern
    rule skips makes [visit_module] return [False] at once: the
    session is left as it was (no file written, no name registered, no
    item documented), and the visit reaches no module, the skipped one
    and its descendants included. *)
Theorem visit_module_skipped (module : pymodule) (s : session) :
  skipped_by_name module ∨ skipped_by_docstring module →
  visit_module module s = (Return (Some false), s)
  ∧ visited module = [].
Proof.
  intros Hskip%skipped_rules.
  by rewrite visit_module_eq, visited_eq, Hskip.
Qed.

(** ** The effect of a visit, in normal form *)

Lemma add_items_empty s : add_items ∅ s = s.
Proof.
  destruct s. unfold add_items. simpl. f_equal. apply (left_id_L ∅ (∪)).
Qed.

Lemma add_items_add_items D E s :
  add_items E (add_items D s) = add_items (E ∪ D) s.
Proof. unfold add_items. simpl. f_equal. apply (assoc_L (∪)). Qed.

Lemma write_rst_value module rst s :
  (write_rst module rst s).1 = Return (Some true).
Proof.
  unfold write_rst. msimpl.
  by destruct (files s !! rst_basename module) as [c|];
    [destruct (String.eqb c rst || _)|].
Qed.

Lemma write_rst_add_items D module rst s :
  (write_rst module rst (add_items D s)).2
  = add_items D (write_rst module rst s).2.
Proof.
  unfold write_rst, add_items. msimpl.
  by destruct (files s !! rst_basename module) as [c|];
    [destruct (String.eqb c rst || _)|].
Qed.

Lemma run_writes_add_items D calls s :
  run_writes calls (add_items D s) = add_items D (run_writes calls s).
Proof.
  revert s. induction calls as [|c calls IH]; intros s; [done|].
  simpl. by rewrite write_rst_add_items, IH.
Qed.

Lemma run_writes_app calls calls' s :
  run_writes (calls ++ calls') s = run_writes calls' (run_writes calls s).
Proof. apply fold_left_app. Qed.

Lemma normal_ret {A} (a : A) : normal (ret a) (Return a) ∅ [].
Proof. intros s. simpl. by rewrite add_items_empty. Qed.

Lemma normal_raise {A} e : normal (@raise A e) (Raise e) ∅ [].
Proof. intros s. simpl. by rewrite add_items_empty. Qed.

Lemma normal_lift {A} (o : outcome A) : normal (lift o) o ∅ [].
Proof. intros s. simpl. by rewrite add_items_empty. Qed.

Lemma normal_add_documented_item item :
  normal (add_documented_item item) (Return tt) {[ item ]} [].
Proof. by intros s. Qed.

Lemma normal_write_rst module rst :
  normal (write_rst module rst) (Return (Some true)) ∅
    [ (module, rst) ].
Proof.
  intros s. rewrite add_items_empty. simpl.
  rewrite <-(write_rst_value module rst s). by destruct (write_rst _ _ _).
Qed.

Lemma normal_bind_return {A B} (c : M A) (k : A → M B) a D calls w E calls' :
  normal c (Return a) D calls → normal (k a) w E calls' →
  normal (bind c k) w (E ∪ D) (calls ++ calls').
Proof.
  intros Hc Hk s. unfold bind. rewrite Hc, Hk.
  by rewrite run_writes_add_items, add_items_add_items, run_writes_app.
Qed.

Lemma normal_bind_raise {A B} (c : M A) (k : A → M B) e D calls :
  normal c (Raise e) D calls → normal (bind c k) (Raise e) D calls.
Proof. intros Hc s. unfold bind. by rewrite Hc. Qed.

(** Every computation in normal form binds to one. *)
Lemma normal_bind {A B} (c : M A) (k : A → M B) v D calls :
  normal c v D calls →
  (∀ a, v = Return a → ∃ w E calls', normal (k a) w E calls') →
  ∃ w E calls', normal (bind c k) w E (calls ++ calls').
Proof.
  intros Hc Hk. destruct v as [a|e].
  - destruct (Hk a eq_refl) as (w & E & calls' & Hka).
    eexists _, _, _. by eapply normal_bind_return.
  - exists (Raise e), D, []. rewrite app_nil_r. by apply normal_bind_raise.
Qed.

(** *** Rendering only documents items *)

Lemma normal_add_documented_members memberType members :
  ∃ D, normal (add_documented_members memberType members) (Return tt) D [].
Proof.
  induction members as [|[[mname m] docstring] rest [D IH]].
  - exists ∅. apply normal_ret.
  - eexists. simpl.
    eapply normal_bind_return with (calls:=[]) (calls':=[]);
      [apply normal_add_documented_item | exact IH].
Qed.

Lemma normal_generate_member_type_rst module memberType members :
  ∃ v D, normal (generate_member_type_rst module memberType
                   members) v D [].
Proof.
  unfold generate_member_type_rst.
  destruct (normal_add_documented_members memberType members) as [D HD].
  destruct (str_in memberType autosummary_member_types).
  - eexists _, _.
    eapply normal_bind_return with (calls:=[]) (calls':=[]); [exact HD|].
    apply normal_ret.
  - destruct (member_rsts memberType members) as [rsts|e].
    + eexists _, _.
      eapply normal_bind_return with (calls:=[]) (calls':=[]); [exact HD|].
      eapply normal_bind_return with (calls:=[]) (calls':=[]);
        [apply normal_lift | apply normal_ret].
    + eexists _, _.
      eapply normal_bind_return with (calls:=[]) (calls':=[]); [exact HD|].
      apply normal_bind_raise, normal_lift.
Qed.

Lemma normal_append_sections module items output :
  ∃ v D, normal (append_sections module items output) v D []
         ∧ (output ≠ "" → v ≠ Return "").
Proof.
  revert output.
  induction items as [|[memberType members] rest IH]; intros output.
  - exists (Return output), ∅. split; [apply normal_ret | congruence].
  - destruct members as [|x members]; [apply IH|].
    cbn [append_sections].
    destruct (normal_generate_member_type_rst module memberType
                (x :: members)) as ([extra|e] & D & Hextra).
    + destruct (truthy (Some extra)) eqn:Ht.
      * destruct (IH (output +:+ nl +:+ extra)) as (v & E & Hv & Hne).
        exists v, (E ∪ D). split.
        { eapply normal_bind_return with (calls:=[]) (calls':=[]);
            [exact Hextra|].
          cbv beta. rewrite Ht. exact Hv. }
        intros _. apply Hne. by destruct output.
      * destruct (IH output) as (v & E & Hv & Hne).
        exists v, (E ∪ D). split; [|exact Hne].
        eapply normal_bind_return with (calls:=[]) (calls':=[]);
          [exact Hextra|].
        cbv beta. rewrite Ht. exact Hv.
    + exists (Raise e), D. split; [|congruence].
      by apply normal_bind_raise.
Qed.

(** For a dictionary that has keys, [generate_module_rst] raises or
    returns a text that is not empty: at least the module heading. *)
Lemma normal_generate_module_rst module membersByType :
  membersByType ≠ [] →
  ∃ v D, normal (generate_module_rst module membersByType) v D []
         ∧ ∀ r, v = Return r → ∃ c text, r = Some (String c text).
Proof.
  intros Hne. destruct membersByType as [|kv rest]; [done|].
  unfold generate_module_rst.
  destruct (normal_append_sections module (kv :: rest)
              (module_heading (mod_name module)))
    as ([output|e] & D & Hout & Hnonempty).
  - eexists _, _. split.
    + eapply normal_bind_return with (calls:=[]) (calls':=[]);
        [apply normal_add_documented_item|].
      eapply normal_bind_return with (calls:=[]) (calls':=[]);
        [exact Hout | apply normal_ret].
    + intros r [= <-]. destruct output as [|c text]; [|by eexists _, _].
      by destruct Hnonempty.
  - eexists _, _. split.
    + eapply normal_bind_return with (calls:=[]) (calls':=[]);
        [apply normal_add_documented_item|].
      apply normal_bind_raise, Hout.
    + congruence.
Qed.

Lemma mbt_append_keys mtype x membersByType :
  map fst (mbt_append mtype x membersByType) = map fst membersByType.
Proof.
  induction membersByType as [|[t l] rest IH]; [done|]. simpl.
  destruct (String.eqb t mtype); simpl; by rewrite ?IH.
Qed.

Lemma visit_member_keys module membersByType x :
  map fst (visit_member module membersByType x)
  = map fst membersByType.
Proof.
  unfold visit_member. destruct x as [[mname m] isattr].
  destruct (_ && _); [done|].
  destruct (member_type m isattr); [|done].
  destruct (_ && _); [done|]. apply mbt_append_keys.
Qed.

Lemma fold_visit_member_keys module l membersByType :
  map fst (fold_left (visit_member module) l membersByType)
  = map fst membersByType.
Proof.
  revert membersByType. induction l as [|x l IH]; intros mbt; [done|].
  simpl. by rewrite IH, visit_member_keys.
Qed.

Lemma normal_document_module module membersByType :
  map fst membersByType = doc_module_member_types →
  ∃ v D, normal (document_module module membersByType) v D []
         ∧ ∀ r, v = Return r → ∃ c text, r = Some (String c text).
Proof.
  intros Hkeys. unfold document_module.
  destruct (negb (documenter_import host module)).
  - eexists _, _. split; [apply normal_raise | congruence].
  - apply normal_generate_module_rst. intros Hnil.
    pose proof (fold_visit_member_keys module
      (filter_members host module (permitted_members module))
      membersByType) as Hk.
    by rewrite Hnil, Hkeys in Hk.
Qed.

(** *** The walk *)

Lemma normal_visit_submodules subs :
  Forall (λ p, walked p.2) subs →
  ∀ membersByType,
    ∃ v D calls,
      normal (visit_submodules (visit_module) subs
                membersByType) v D calls
      ∧ Forall (λ c, rst_of c.1 = Return (Some c.2)) calls
      ∧ ∀ mbt, v = Return mbt →
               map fst mbt = map fst membersByType
               ∧ map fst calls = flat_map (λ p, visited p.2) subs.
Proof.
  induction 1 as [|[submodulename submodule] rest Hsub _ IH];
    intros membersByType.
  - exists (Return membersByType), ∅, []. split; [apply normal_ret|].
    split; [constructor|]. by intros mbt [= <-].
  - destruct Hsub as (v1 & D1 & calls1 & Hn1 & Htexts1 & Hret1).
    simpl in Hn1, Hret1.
    change (visit_submodules (visit_module)
              ((submodulename, submodule) :: rest) membersByType)
      with (let! r := visit_module submodule in
            if negb (py_bool r)
            then visit_submodules (visit_module) rest
                   membersByType
            else if dict_has "module" membersByType
            then visit_submodules (visit_module) rest
                   (mbt_append "module"
                      (submodulename, module_obj submodule,
                       mod_doc submodule) membersByType)
            else visit_submodules (visit_module) rest
                   membersByType).
    destruct v1 as [r|e].
    + destruct (Hret1 r eq_refl) as [_ Hcalls1].
      set (mbt1 := if negb (py_bool r) then membersByType
                   else if dict_has "module" membersByType
                   then mbt_append "module"
                          (submodulename, module_obj submodule,
                           mod_doc submodule) membersByType
                   else membersByType).
      assert (map fst mbt1 = map fst membersByType) as Hkeys.
      { unfold mbt1. repeat case_match; by rewrite ?mbt_append_keys. }
      destruct (IH mbt1) as (v2 & D2 & calls2 & Hn2 & Htexts2 & Hret2).
      exists v2, (D2 ∪ D1), (calls1 ++ calls2). split; [|split].
      * eapply normal_bind_return; [exact Hn1|]. cbv beta.
        unfold mbt1 in Hn2. by repeat case_match.
      * by apply Forall_app.
      * intros mbt Hv. destruct (Hret2 mbt Hv) as [-> Hcalls2].
        split; [done|]. simpl. by rewrite map_app, Hcalls1, Hcalls2.
    + exists (Raise e), D1, calls1. split; [|split; [done|congruence]].
      by apply normal_bind_raise.
Qed.

Lemma normal_module_rst module :
  Forall (λ p, walked p.2) (submodules module) →
  ∃ v D calls,
    normal (module_rst module) v D calls
    ∧ Forall (λ c, rst_of c.1 = Return (Some c.2)) calls
    ∧ ∀ r, v = Return r →
           (∃ c text, r = Some (String c text))
           ∧ map fst calls
             = flat_map (λ p, visited p.2) (submodules module).
Proof.
  intros Hsubs. unfold module_rst.
  destruct (normal_visit_submodules _ Hsubs empty_members_by_type)
    as ([mbt|e] & D1 & calls1 & Hn1 & Htexts1 & Hret1).
  - destruct (Hret1 mbt eq_refl) as [Hkeys Hcalls1].
    destruct (normal_document_module module mbt Hkeys)
      as (v2 & D2 & Hn2 & Hret2).
    exists v2, (D2 ∪ D1), (calls1 ++ []). split; [|split].
    + by eapply normal_bind_return.
    + by rewrite app_nil_r.
    + intros r Hv. split; [by apply Hret2|]. by rewrite app_nil_r.
  - exists (Raise e), D1, calls1. split; [|split; [done|congruence]].
    by apply normal_bind_raise.
Qed.

Lemma visit_module_module_rst (module : pymodule) (s : session) :
  skipped module = false →
  visit_module module s
  = (let! rst := module_rst module in
     match rst with
     | Some (String _ _ as rst) => write_rst module rst
     | _ => ret None
     end) s.
Proof.
  intros Hskip. rewrite visit_module_eq, Hskip. unfold module_rst, bind.
  by destruct (visit_submodules _ _ _ s) as [[mbt|e] s1].
Qed.

Lemma normal_visit_module module : walked module.
Proof.
  induction module as [module IH] using pymodule_ind. unfold walked.
  destruct (skipped module) eqn:Hskip.
  - exists (Return (Some false)), ∅, []. split; [|split].
    + rewrite visit_module_eq, Hskip. apply normal_ret.
    + constructor.
    + intros r [= <-]. rewrite visited_eq, Hskip. by split.
  - destruct (normal_module_rst module IH)
      as ([r|e] & D1 & calls1 & Hn1 & Htexts1 & Hret1).
    + destruct (Hret1 r eq_refl) as [(c & text & ->) Hcalls1].
      exists (Return (Some true)), (∅ ∪ D1),
        (calls1 ++ [ (module, String c text) ]).
      split; [|split].
      * intros s. rewrite visit_module_module_rst by done.
        revert s. eapply normal_bind_return; [exact Hn1|].
        apply normal_write_rst.
      * apply Forall_app. split; [done|]. constructor; [|constructor].
        unfold rst_of. simpl. by rewrite Hn1.
      * intros r [= <-].
        rewrite visited_eq, Hskip, map_app, Hcalls1. by split.
    + exists (Raise e), D1, calls1. split; [|split; [done|congruence]].
      intros s. rewrite visit_module_module_rst by done.
      revert s. by apply normal_bind_raise.
Qed.

Lemma normal_visit_modules mods :
  ∃ v D calls,
    normal (visit_modules mods) v D calls
    ∧ Forall (λ c, rst_of c.1 = Return (Some c.2)) calls
    ∧ (v = Return tt →
       map fst calls = flat_map (visited) mods).
Proof.
  induction mods as [|module rest (v2 & D2 & calls2 & Hn2 & Ht2 & Hr2)].
  - exists (Return tt), ∅, []. split; [apply normal_ret|].
    split; [constructor|done].
  - destruct (normal_visit_module module)
      as ([r|e] & D1 & calls1 & Hn1 & Ht1 & Hr1).
    + destruct (Hr1 r eq_refl) as [_ Hcalls1].
      exists v2, (D2 ∪ D1), (calls1 ++ calls2). split; [|split].
      * simpl. by eapply normal_bind_return.
      * by apply Forall_app.
      * intros Hv. simpl. by rewrite map_app, Hcalls1, Hr2.
    + exists (Raise e), D1, calls1. split; [|split; [done|congruence]].
      simpl. by apply normal_bind_raise.
Qed.

(** ** The end of [visit_module] *)

Lemma write_rst_untouched module rst s :
  left_untouched module rst s = true →
  (write_rst module rst s).2
  = Session (files s) ({[ rst_basename module ]} ∪ rst_files_generated s)
      (documented_items s) (trace s).
Proof.
  unfold left_untouched, write_rst. msimpl.
  by destruct (files s !! rst_basename module) as [c|];
    [destruct (String.eqb c rst || _)|].
Qed.

Lemma write_rst_written module rst s :
  left_untouched module rst s = false →
  (write_rst module rst s).2
  = Session (<[ rst_basename module := rst ]> (files s))
      ({[ rst_basename module ]} ∪ rst_files_generated s)
      (documented_items s)
      (trace s ++ [ EvWriteRst (rst_basename module) rst ]).
Proof.
  unfold left_untouched, write_rst. msimpl.
  by destruct (files s !! rst_basename module) as [c|];
    [destruct (String.eqb c rst || _)|].
Qed.

Lemma names_snoc calls c :
  names (calls ++ [ c ]) = {[ rst_basename c.1 ]} ∪ names calls.
Proof. unfold names. rewrite map_app, list_to_set_app_L. set_solver. Qed.

Lemma run_writes_snoc calls c s :
  run_writes (calls ++ [ c ]) s
  = (write_rst c.1 c.2 (run_writes calls s)).2.
Proof. by rewrite run_writes_app. Qed.

Lemma run_writes_generated calls s :
  rst_files_generated (run_writes calls s)
  = names calls ∪ rst_files_generated s.
Proof.
  induction calls as [|c calls IH] using rev_ind.
  - unfold names. simpl. set_solver.
  - rewrite run_writes_snoc, names_snoc.
    destruct (left_untouched c.1 c.2 (run_writes calls s)) eqn:Hu;
      [rewrite write_rst_untouched by done
      |rewrite write_rst_written by done];
      simpl; rewrite IH; set_solver.
Qed.

Lemma run_writes_documented calls s :
  documented_items (run_writes calls s) = documented_items s.
Proof.
  induction calls as [|c calls IH] using rev_ind; [done|].
  rewrite run_writes_snoc.
  by destruct (left_untouched c.1 c.2 (run_writes calls s)) eqn:Hu;
    [rewrite write_rst_untouched by done
    |rewrite write_rst_written by done].
Qed.

Lemma run_writes_dom calls s :
  dom (files (run_writes calls s)) = names calls ∪ dom (files s).
Proof.
  induction calls as [|c calls IH] using rev_ind.
  - unfold names. simpl. set_solver.
  - rewrite run_writes_snoc, names_snoc.
    destruct (left_untouched c.1 c.2 (run_writes calls s)) eqn:Hu.
    + rewrite write_rst_untouched by done. simpl. rewrite IH.
      unfold left_untouched in Hu.
      destruct (files (run_writes calls s) !! rst_basename c.1) eqn:Hf;
        [|done].
      assert (rst_basename c.1 ∈ dom (files (run_writes calls s)))
        by (apply elem_of_dom; eauto).
      set_solver.
    + rewrite write_rst_written by done. simpl.
      rewrite dom_insert_L, IH. set_solver.
Qed.

(** The trace grows by the writes of per-module files only, each to a
    registered entry. *)
Lemma run_writes_trace calls s :
  ∃ evs, trace (run_writes calls s) = trace s ++ evs
         ∧ Forall (λ ev, ∃ f c, ev = EvWriteRst f c ∧ f ∈ names calls) evs.
Proof.
  induction calls as [|c calls (evs & IH & Hevs)] using rev_ind.
  - exists []. by rewrite app_nil_r.
  - rewrite run_writes_snoc, names_snoc.
    assert (Forall (λ ev, ∃ f c0, ev = EvWriteRst f c0
              ∧ f ∈ {[ rst_basename c.1 ]} ∪ names calls) evs) as Hevs'.
    { eapply Forall_impl; [exact Hevs|].
      intros ev (f & c0 & -> & Hf). eexists _, _. split; [done|].
      set_solver. }
    destruct (left_untouched c.1 c.2 (run_writes calls s)) eqn:Hu.
    + rewrite write_rst_untouched by done. simpl. by exists evs.
    + rewrite write_rst_written by done. simpl.
      exists (evs ++ [ EvWriteRst (rst_basename c.1) c.2 ]).
      rewrite IH, <-app_assoc. split; [done|].
      apply Forall_app. split; [done|]. constructor; [|constructor].
      eexists _, _. split; [done|]. set_solver.
Qed.

(** ** A run of [generate] *)

Lemma remove_all_lookup l (m : gmap string string) f :
  remove_all l m !! f = if decide (f ∈ l) then None else m !! f.
Proof.
  revert m. induction l as [|x l IH]; intros m.
  - change (remove_all [] m) with m. by rewrite decide_False by set_solver.
  - change (remove_all (x :: l) m) with (remove_all l (delete x m)).
    rewrite IH. destruct (decide (f ∈ l)) as [Hin|Hnin].
    + by rewrite decide_True by set_solver.
    + destruct (decide (x = f)) as [->|Hne].
      * rewrite lookup_delete_eq. by rewrite decide_True by set_solver.
      * rewrite lookup_delete_ne by done.
        by rewrite decide_False by set_solver.
Qed.

Lemma remove_files_spec l s :
  remove_files l s
  = (Return tt,
     Session (remove_all l (files s)) (rst_files_generated s)
       (documented_items s) (trace s ++ map EvRemove l)).
Proof.
  revert s. induction l as [|f l IH]; intros s.
  - simpl. rewrite app_nil_r. by destruct s.
  - simpl. unfold bind. simpl. rewrite IH. simpl.
    by rewrite <-app_assoc.
Qed.

Lemma generate_accepted s :
  config_accepted →
  generate s
  = match visit_modules (modules config) (start_run s) with
    | (Return _, s1) => (Return tt, end_run s1)
    | (Raise e, s1) => (Raise e, s1)
    end.
Proof.
  intros [Hdir Hmods]. unfold generate.
  destruct (String.eqb_spec (normpath host (generated_source_dir config))
              (normpath host ".")) as [|_]; [done|].
  destruct (modules config) as [|module rest] eqn:Hm; [done|].
  unfold bind at 1. cbn [modify]. fold (start_run s).
  unfold bind at 1.
  destruct (visit_modules (module :: rest) (start_run s))
    as [[[]|e] s1]; [|done].
  unfold bind at 1. cbn [gets]. unfold bind at 1.
  fold (stale_files s1). rewrite remove_files_spec.
  unfold end_run, listing_file.
  destruct (write_documented_items_output_file config) as [[|c f]|];
    simpl; try by rewrite ?app_nil_r.
  unfold bind, gets, write_file, modify, listing. simpl.
  by rewrite <-app_assoc.
Qed.

Lemma generate_rejected s :
  ¬ config_accepted →
  ∃ msg, generate s = (Raise (AssertionError msg), s).
Proof.
  intros Hno. unfold generate.
  destruct (String.eqb_spec (normpath host (generated_source_dir config))
              (normpath host ".")) as [Heq|Hne]; [by eexists|].
  destruct (modules config) as [|module rest] eqn:Hm; [by eexists|].
  destruct Hno. split; [done|]. by rewrite Hm.
Qed.

Lemma end_run_lookup s f :
  files (end_run s) !! f
  = if decide (listing_file = Some f) then Some (listing (documented_items s))
    else if decide (f ∈ rst_files_generated s) then files s !! f
    else None.
Proof.
  assert (remove_all (stale_files s) (files s) !! f
          = if decide (f ∈ rst_files_generated s) then files s !! f
            else None) as Hkept.
  { rewrite remove_all_lookup. unfold stale_files.
    destruct (decide (f ∈ rst_files_generated s)) as [Hin|Hnin].
    - rewrite decide_False; [done|].
      rewrite elem_of_elements. set_solver.
    - destruct (files s !! f) eqn:Hf; [|by case_decide].
      rewrite decide_True; [done|].
      rewrite elem_of_elements, elem_of_difference, elem_of_dom. eauto. }
  unfold end_run. destruct listing_file as [lf|]; cbn [files].
  - destruct (decide (Some lf = Some f)) as [[= ->]|Hne].
    + by rewrite lookup_insert_eq.
    + rewrite lookup_insert_ne by congruence. exact Hkept.
  - destruct (decide (None = Some f)) as [[=]|_]. exact Hkept.
Qed.

Lemma end_run_generated s :
  rst_files_generated (end_run s) = rst_files_generated s.
Proof. unfold end_run. by destruct listing_file. Qed.

Lemma end_run_documented s :
  documented_items (end_run s) = documented_items s.
Proof. unfold end_run. by destruct listing_file. Qed.

Lemma end_run_trace s : trace (end_run s) = trace s ++ end_events s.
Proof.
  unfold end_run, end_events. destruct listing_file; simpl; [done|].
  by rewrite app_nil_r.
Qed.

(** A run that returns went through the whole walk. *)
Lemma generate_completed s s' :
  generate s = (Return tt, s') →
  config_accepted
  ∧ ∃ D calls,
      map fst calls = walk
      ∧ Forall (λ c, rst_of c.1 = Return (Some c.2)) calls
      ∧ normal (visit_modules (modules config)) (Return tt) D
          calls
      ∧ s' = end_run (add_items D (run_writes calls (start_run s))).
Proof.
  intros Hgen.
  assert config_accepted as Hok.
  { unfold generate in Hgen. split.
    - intros Heq. apply String.eqb_eq in Heq. by rewrite Heq in Hgen.
    - intros Hnil. rewrite Hnil in Hgen. by destruct (String.eqb _ _). }
  split; [done|]. rewrite generate_accepted in Hgen by done.
  destruct (normal_visit_modules (modules config))
    as (v & D & calls & Hn & Htexts & Hret).
  rewrite Hn in Hgen. destruct v as [[]|e]; [|done].
  injection Hgen as <-. exists D, calls. by rewrite Hret.
Qed.

Lemma walk_state_facts D calls s :
  let s1 := add_items D (run_writes calls (start_run s)) in
  rst_files_generated s1 = names calls
  ∧ dom (files s1) = names calls ∪ dom (files s)
  ∧ documented_items s1 = D
  ∧ ∃ evs, trace s1 = trace s ++ evs
           ∧ Forall (λ ev, ∃ f c, ev = EvWriteRst f c ∧ f ∈ names calls) evs.
Proof.
  simpl. rewrite run_writes_generated, run_writes_dom, run_writes_documented.
  simpl. repeat split; [set_solver..|].
  apply (run_writes_trace calls (start_run s)).
Qed.


(** ** Files that are left unwritten *)


Lemma run_writes_preserve calls s f c :
  overwrite_generated_source_rsts config = false →
  files s !! f = Some c → files (run_writes calls s) !! f = Some c.
Proof.
  intros Hpolicy Hf.
  induction calls as [|x calls IH] using rev_ind; [done|].
  rewrite run_writes_snoc.
  destruct (left_untouched x.1 x.2 (run_writes calls s)) eqn:Hu.
  - by rewrite write_rst_untouched.
  - rewrite write_rst_written by done. simpl.
    rewrite lookup_insert_ne; [done|]. intros Heq.
    unfold left_untouched in Hu. rewrite Heq, IH, Hpolicy in Hu.
    by rewrite orb_true_r in Hu.
Qed.

(** Under the policy that keeps existing files, a visit leaves every
    existing entry of the generated directory as it is, whatever the
    visit returns or raises. *)
Lemma visit_module_preserves_existing module s f c :
  overwrite_generated_source_rsts config = false →
  files s !! f = Some c →
  files (visit_module module s).2 !! f = Some c.
Proof.
  intros Hpolicy Hf.
  destruct (normal_visit_module module) as (v & D & calls & Hn & _).
  rewrite Hn. simpl. by apply run_writes_preserve.
Qed.

(** C6.  When the file of a module exists at the end of its visit
    (content [old], rendered text [rst]): the file is written only if
    [old] differs from [rst]; under the policy that keeps existing files
    ([overwrite_generated_source_rsts] false) the directory and the
    trace are left as they are, whether or not [old] differs from
    [rst]; otherwise a differing file is overwritten with [rst].  Under
    the keeping policy the whole visit of a module, its submodules
    included, leaves every existing file unchanged. *)
Theorem existing_file_policy (module : pymodule) (rst old : string)
    (s : session) :
  files s !! rst_basename module = Some old →
  let s' := (write_rst module rst s).2 in
  (In (EvWriteRst (rst_basename module) rst) (run_events s s') → old ≠ rst)
  ∧ (old = rst → files s' = files s ∧ trace s' = trace s)
  ∧ (overwrite_generated_source_rsts config = false →
     files s' = files s ∧ trace s' = trace s
     ∧ ∀ t f c, files t !! f = Some c →
                files (visit_module module t).2 !! f = Some c)
  ∧ (overwrite_generated_source_rsts config = true → old ≠ rst →
     files s' = <[ rst_basename module := rst ]> (files s)
     ∧ trace s' = trace s ++ [ EvWriteRst (rst_basename module) rst ]).
Proof.
  intros Hold s'. unfold s', run_events.
  destruct (left_untouched module rst s) eqn:Hu.
  - rewrite write_rst_untouched by done. simpl.
    rewrite drop_ge by done. split; [done|]. split; [done|].
    split.
    + intros Hpolicy. split; [done|]. split; [done|].
      intros t f c. by apply visit_module_preserves_existing.
    + unfold left_untouched in Hu. rewrite Hold in Hu.
      intros Hpolicy Hne. rewrite Hpolicy, orb_false_r in Hu.
      by apply String.eqb_eq in Hu.
  - rewrite write_rst_written by done. simpl.
    unfold left_untouched in Hu. rewrite Hold in Hu.
    apply orb_false_iff in Hu as [Hne Hpolicy].
    apply String.eqb_neq in Hne. apply negb_false_iff in Hpolicy.
    split; [done|]. split; [done|]. split; [by rewrite Hpolicy|done].
Qed.


(** ** Fatal errors *)

Lemma visit_module_import_failure module s :
  skipped module = false →
  documenter_import host module = false →
  ∃ e, (visit_module module s).1 = Raise e.
Proof.
  intros Hskip Himport. rewrite visit_module_eq, Hskip. unfold bind.
  destruct (visit_submodules _ _ _ s) as [[mbt|e] s1]; [|by eexists].
  unfold document_module. rewrite Himport. simpl. by eexists.
Qed.

Lemma visit_modules_import_failure mods module s :
  In module mods →
  skipped module = false →
  documenter_import host module = false →
  ∃ e, (visit_modules mods s).1 = Raise e.
Proof.
  intros Hin Hskip Himport. revert s.
  induction mods as [|m rest IH]; intros s; [done|].
  simpl. unfold bind.
  destruct Hin as [->|Hin].
  - destruct (visit_module_import_failure module s Hskip Himport)
      as [e He].
    destruct (visit_module module s) as [[r|e'] s1];
      [done|by eexists].
  - destruct (visit_module m s) as [[r|e'] s1];
      [by apply IH|by eexists].
Qed.

(** X21.  With an empty list of root modules, or with a generated
    directory whose path normalises to ["."], [generate] raises an
    [AssertionError] and leaves the session as it is: no file is
    written or removed.  When the documenter fails to import a root
    module, [generate] raises. *)
Theorem generate_aborts (s : session) :
  fatal_configuration ∨ root_import_fails →
  ∃ e s', generate s = (Raise e, s')
          ∧ (fatal_configuration →
             s' = s ∧ ∃ msg, e = AssertionError msg).
Proof.
  assert (fatal_configuration → ¬ config_accepted) as Hfatal.
  { intros [Hm|Hd] [Hd' Hm']; by auto. }
  intros [Hf|(module & Hin & Hskip & Himport)].
  - destruct (generate_rejected s (Hfatal Hf)) as [msg Hg].
    exists (AssertionError msg), s. split; [done|]. by eauto.
  - destruct (String.eqb_spec (normpath host (generated_source_dir config))
                (normpath host ".")) as [Heq|Hne].
    { assert fatal_configuration as Hf by by right.
      destruct (generate_rejected s (Hfatal Hf)) as [msg Hg].
      exists (AssertionError msg), s. split; [done|]. by eauto. }
    assert config_accepted as Hok.
    { split; [done|]. intros Hnil. by rewrite Hnil in Hin. }
    rewrite generate_accepted by done.
    destruct (visit_modules_import_failure _ _ (start_run s) Hin Hskip
                Himport) as [e He].
    destruct (visit_modules (modules config) (start_run s))
      as [[r|e'] s1]; [done|].
    exists e', s1. split; [done|]. intros Hf. by destruct (Hfatal Hf).
Qed.

(** ** Running twice *)

Lemma rst_basename_inj m m' :
  rst_basename m = rst_basename m' → mod_name m = mod_name m'.
Proof. apply append_inj_r. Qed.

Lemma run_writes_settled calls s :
  consistent calls → settled calls (files (run_writes calls s)).
Proof.
  induction calls as [|x calls IH] using rev_ind; [by intros _ c []|].
  intros Hcons.
  assert (consistent calls) as Hcons'.
  { intros c c' Hc Hc'. apply Hcons; apply in_or_app; by left. }
  specialize (IH Hcons'). rewrite run_writes_snoc.
  assert (In x (calls ++ [ x ])) as Hx by (apply in_or_app; right; by left).
  destruct (left_untouched x.1 x.2 (run_writes calls s)) eqn:Hu.
  - rewrite write_rst_untouched by done. simpl.
    intros c [Hc|[<-|[]]]%in_app_or; [by apply IH|].
    unfold left_untouched in Hu.
    destruct (files (run_writes calls s) !! rst_basename x.1) as [old|];
      [|done].
    exists old. split; [done|]. intros Hpolicy.
    rewrite Hpolicy, orb_false_r in Hu. by apply String.eqb_eq in Hu.
  - rewrite write_rst_written by done. simpl.
    intros c Hc.
    destruct (decide (rst_basename x.1 = rst_basename c.1)) as [Heq|Hne].
    + exists x.2. rewrite <-Heq, lookup_insert_eq. split; [done|].
      intros _. by apply Hcons.
    + rewrite lookup_insert_ne by done.
      apply in_app_or in Hc as [Hc|[<-|[]]]; [by apply IH|done].
Qed.

Lemma run_writes_noop calls s :
  settled calls (files s) →
  files (run_writes calls s) = files s
  ∧ trace (run_writes calls s) = trace s.
Proof.
  induction calls as [|x calls IH] using rev_ind; [done|].
  intros Hset.
  destruct IH as [Hfiles Htrace].
  { intros c Hc. apply Hset, in_or_app. by left. }
  rewrite run_writes_snoc.
  assert (left_untouched x.1 x.2 (run_writes calls s) = true) as Hu.
  { unfold left_untouched. rewrite Hfiles.
    destruct (Hset x) as (old & -> & Hold);
      [apply in_or_app; right; by left|].
    destruct (overwrite_generated_source_rsts config);
      [|by rewrite orb_true_r].
    rewrite Hold by done. by rewrite String.eqb_refl. }
  by rewrite write_rst_untouched.
Qed.

Lemma walk_consistent calls :
  names_denote_modules →
  map fst calls = walk →
  Forall (λ c, rst_of c.1 = Return (Some c.2)) calls →
  consistent calls.
Proof.
  intros Hnames Hwalk Htexts c c' Hc Hc' Heq%rst_basename_inj.
  rewrite Forall_forall in Htexts.
  pose proof (Htexts c (proj2 (list_elem_of_In _ _) Hc)) as H1.
  pose proof (Htexts c' (proj2 (list_elem_of_In _ _) Hc')) as H2.
  assert (c.1 = c'.1) as Hm.
  { apply Hnames; [| |done]; rewrite <-Hwalk; by apply in_map. }
  rewrite Hm in H1. congruence.
Qed.

(** C4 (amended).  When a name denotes one module of the walk and the
    listing of documented items, if one is configured, is a plain file
    name (no path separator) that is not the file name of a module of
    the walk, a run of [generate] that returns can be followed by a
    second run from the session that it leaves: the second run
    returns, leaves the generated directory with the same entries and
    contents, and writes no per-module file. *)
Theorem generate_twice (s s1 : session) :
  names_denote_modules → listing_is_plain → listing_apart →
  generate s = (Return tt, s1) →
  ∃ s2, generate s1 = (Return tt, s2)
        ∧ second_run_is_quiet s1 s2.
Proof.
  intros Hnames _ Hapart
    (Hok & D & calls & Hwalk & Htexts & Hn & ->)%generate_completed.
  set (a1 := add_items D (run_writes calls (start_run s))).
  set (s1 := end_run a1).
  set (a2 := add_items D (run_writes calls (start_run s1))).
  exists (end_run a2). split.
  { rewrite generate_accepted by done. by rewrite Hn. }
  destruct (walk_state_facts D calls s) as (Hgen1 & _ & Hdoc1 & _).
  fold a1 in Hgen1, Hdoc1.
  assert (settled calls (files s1)) as Hset.
  { intros c Hc.
    destruct (run_writes_settled calls (start_run s)
                (walk_consistent calls Hnames Hwalk Htexts) c Hc)
      as (old & Hold & Hpolicy).
    exists old. split; [|done].
    unfold s1. rewrite end_run_lookup, Hgen1.
    rewrite decide_False.
    - rewrite decide_True; [done|].
      unfold names. apply elem_of_list_to_set, list_elem_of_In, in_map_iff.
      by exists c.
    - apply Hapart. rewrite <-Hwalk. by apply in_map. }
  destruct (run_writes_noop calls (start_run s1) Hset) as [Hfiles Htrace].
  destruct (walk_state_facts D calls s1) as (Hgen2 & _ & Hdoc2 & _).
  fold a2 in Hgen2, Hdoc2.
  assert (files a2 = files s1) as Hfiles2 by exact Hfiles.
  assert (trace a2 = trace s1) as Htrace2 by exact Htrace.
  split.
  - apply map_eq. intros f.
    rewrite end_run_lookup, Hgen2, Hdoc2, Hfiles2.
    unfold s1 at 2. rewrite end_run_lookup, Hgen1, Hdoc1.
    destruct (decide (listing_file = Some f)); [done|].
    destruct (decide (f ∈ names calls)); [|done].
    unfold s1. rewrite end_run_lookup, Hgen1.
    rewrite decide_False by done. by rewrite decide_True.
  - intros f content. unfold run_events.
    rewrite end_run_trace, Htrace2, drop_app_length.
    unfold end_events. intros [Hr|Hr]%in_app_or.
    + by apply in_map_iff in Hr as (? & [=] & _).
    + destruct listing_file; [|done]. by destruct Hr as [[=]|[]].
Qed.

(** A visit never returns [None]: the branch of [visit_module] for a
    module without output is not reached. *)
Lemma visit_module_never_returns_none module s :
  (visit_module module s).1 ≠ Return None.
Proof.
  destruct (normal_visit_module module) as (v & D & calls & Hn & _ & Hret).
  rewrite Hn. simpl. intros ->. by destruct (Hret None eq_refl).
Qed.

(** * Further properties *)

(** ** Splitting names *)

Lemma has_char_app c a b :
  has_char c (a +:+ b) = has_char c a || has_char c b.
Proof.
  induction a as [|x a IH]; [reflexivity|].
  change (Ascii.eqb x c || has_char c (a +:+ b)
          = Ascii.eqb x c || has_char c a || has_char c b).
  by rewrite IH, orb_assoc.
Qed.

Lemma str_split_no_char c b :
  has_char c b = false → str_split c b = [ b ].
Proof.
  induction b as [|x b IH]; [done|]. simpl.
  intros [Hx Hb]%orb_false_iff. by rewrite Hx, (IH Hb).
Qed.

(** A separator splits a string into what precedes it, in one element
    at least, and the split of what follows. *)
Lemma str_split_app c a b :
  ∃ w ws, str_split c (a +:+ String c b) = (w :: ws) ++ str_split c b.
Proof.
  induction a as [|x a (w & ws & IH)].
  - exists "", []. change ("" +:+ String c b) with (String c b).
    simpl. by rewrite Ascii.eqb_refl.
  - change (String x a +:+ String c b) with (String x (a +:+ String c b)).
    cbn [str_split]. rewrite IH. destruct (Ascii.eqb x c).
    + by exists "", (w :: ws).
    + by exists (String x w), ws.
Qed.

Lemma last_str_split_app c a b :
  has_char c b = false →
  List.last (str_split c (a +:+ String c b)) "" = b.
Proof.
  intros Hb. destruct (str_split_app c a b) as (w & ws & ->).
  rewrite (str_split_no_char c b Hb).
  apply last_last.
Qed.

(** X1.  For a module whose name holds no ['/'], the name that
    [visit_module] registers, [os.path.basename(rstfile)], is the module
    name followed by [.rst], whatever the generated directory. *)
Theorem basename_of_rstfile (module : pymodule) :
  has_char "/" (mod_name module) = false →
  os_path_basename (rstfile module) = rst_basename module.
Proof.
  intros Hname. unfold os_path_basename, rstfile, rst_basename.
  change ("/" +:+ mod_name module +:+ ".rst")
    with (String "/" (mod_name module +:+ ".rst")).
  apply last_str_split_app. by rewrite has_char_app, Hname.
Qed.

(** X2.  The heading and the directive of a member use the last dotted
    component of its qualified name: for a member name without a dot,
    the block of [modulename.mname], the qualified name that
    [visit_module] builds, is the block of [mname]. *)
Theorem member_heading_last_component
    (memberType modulename mname : string) :
  has_char "." mname = false →
  member_heading memberType (modulename +:+ "." +:+ mname)
  = nl +:+ rst_escape host mname +:+ nl
    +:+ str_repeat "=" (String.length (rst_escape host mname))
    +:+ nl +:+ nl +:+ ".. auto" +:+ memberType +:+ ":: " +:+ mname +:+ nl.
Proof.
  intros Hname. unfold member_heading.
  change ("." +:+ mname) with (String "." mname).
  by rewrite (last_str_split_app "." modulename mname Hname).
Qed.

(** ** Options that cannot be rendered *)

Lemma append_options_raises (autodocoptions : options) (result : string) :
  (∃ e, append_options autodocoptions result = Raise e)
  ↔ Exists (λ kv, ∃ n, kv.2 = VInt n) autodocoptions.
Proof.
  revert result. induction autodocoptions as [|[k v] rest IH]; intros result.
  - split; [by intros [e [=]]|by intros H; inversion H].
  - rewrite Exists_cons. destruct v as [|[]|s|n]; simpl; rewrite ?IH.
    + split; [by right|]. by intros [[n [=]]|].
    + split; [by right|]. by intros [[n [=]]|].
    + split; [by right|]. by intros [[n [=]]|].
    + split; [by right|]. by intros [[n [=]]|].
    + split; [|by eexists]. intros _. left. by exists n.
Qed.

Lemma append_options_error (autodocoptions : options) (result : string) e :
  append_options autodocoptions result = Raise e → ∃ msg, e = TypeError msg.
Proof.
  revert result. induction autodocoptions as [|[k v] rest IH]; intros result;
    [done|].
  destruct v as [|[]|s|n]; simpl; try apply IH. intros [= <-]. by eexists.
Qed.

(** X3.  [get_module_member_rst] raises exactly when an option in
    effect has a value that is not a boolean, [None] or a string (an
    integer, say), and what it raises is a [TypeError]. *)
Theorem member_rst_raises (memberType qualifiedName : string) (obj : pyobj)
    (docstring : option string) :
  ((∃ e, get_module_member_rst memberType qualifiedName obj docstring
         = Raise e)
   ↔ Exists (λ kv, ∃ n, kv.2 = VInt n)
       (options_in_effect memberType qualifiedName obj docstring))
  ∧ ∀ e, get_module_member_rst memberType qualifiedName obj docstring
         = Raise e → ∃ msg, e = TypeError msg.
Proof.
  assert (get_module_member_rst memberType qualifiedName obj docstring
          = append_options
              (options_in_effect memberType qualifiedName obj docstring)
              (member_heading memberType qualifiedName)) as ->.
  { unfold get_module_member_rst, options_in_effect.
    by destruct (call_decider _ _ _ _ _) as [defaults [o|]]. }
  split; [apply append_options_raises|].
  intros e. apply append_options_error.
Qed.

(** ** The text and the documented items of a module *)

Lemma add_documented_members_spec memberType members s :
  (add_documented_members memberType members s).1 = Return tt
  ∧ ∀ x, x ∈ documented_items (add_documented_members memberType members s).2
         ↔ x ∈ documented_items s
           ∨ ∃ q m d, In (q, m, d) members
                      ∧ x = q +:+ " (" +:+ memberType +:+ ")".
Proof.
  revert s. induction members as [|[[q m] d] rest IH]; intros s.
  - split; [done|]. intros x. split; [by left|]. by intros [?|(?&?&?&[]&_)].
  - cbn [add_documented_members]. unfold bind. cbn [add_documented_item modify].
    destruct (IH (Session (files s) (rst_files_generated s)
                    ({[ q +:+ " (" +:+ memberType +:+ ")" ]}
                     ∪ documented_items s) (trace s))) as [Hv Hd].
    split; [exact Hv|]. intros x. rewrite Hd. simpl.
    rewrite elem_of_union, elem_of_singleton. split.
    + intros [[->|Hx]|(q' & m' & d' & Hin & ->)].
      * right. exists q, m, d. split; [by left|done].
      * by left.
      * right. exists q', m', d'. split; [by right|done].
    + intros [Hx|(q' & m' & d' & [[= -> -> ->]|Hin] & ->)].
      * left. by right.
      * left. by left.
      * right. by exists q', m', d'.
Qed.

Lemma generate_member_type_rst_session module memberType members s :
  (generate_member_type_rst module memberType members s).2
  = (add_documented_members memberType members s).2.
Proof.
  unfold generate_member_type_rst, bind.
  destruct (add_documented_members memberType members s) as [[[]|e] s1];
    [|done].
  destruct (str_in memberType autosummary_member_types); [done|].
  unfold lift. by destruct (member_rsts memberType members).
Qed.

(** The sections extend the text, and a loop that returns has
    documented every member of its buckets. *)
Lemma append_sections_spec module items output s o :
  (append_sections module items output s).1 = Return o →
  (∃ rest, o = output +:+ rest)
  ∧ documented_items s ⊆ documented_items (append_sections module items
                                            output s).2
  ∧ ∀ t members q m d,
      In (t, members) items → In (q, m, d) members →
      q +:+ " (" +:+ t +:+ ")"
      ∈ documented_items (append_sections module items output s).2.
Proof.
  revert output s.
  induction items as [|[t0 members0] rest IH]; intros output s.
  - simpl. intros [= <-]. split; [exists ""; by rewrite append_nil_r|].
    split; [done|]. by intros ????? [].
  - destruct members0 as [|x members0].
    { cbn [append_sections]. intros Ho.
      destruct (IH output s Ho) as (Hext & Hmono & Hitems).
      split; [done|]. split; [done|].
      intros t members q m d [[= <- <-]|Hin] Hq; [done|]. by eapply Hitems. }
    cbn [append_sections]. unfold bind.
    pose proof (generate_member_type_rst_session module t0 (x :: members0) s)
      as Hs1.
    destruct (add_documented_members_spec t0 (x :: members0) s) as [_ Hdoc].
    destruct (generate_member_type_rst module t0 (x :: members0) s)
      as [[extra|e] s1]; [|done].
    cbn [snd] in Hs1. rewrite <-Hs1 in Hdoc.
    set (output' := if truthy (Some extra) then output +:+ nl +:+ extra
                    else output).
    assert (∃ rest', output' = output +:+ rest') as [rest' Hout'].
    { unfold output'. destruct (truthy (Some extra));
        [by eexists|exists ""; by rewrite append_nil_r]. }
    assert ((if truthy (Some extra)
             then append_sections module rest (output +:+ nl +:+ extra)
             else append_sections module rest output) s1
            = append_sections module rest output' s1) as ->.
    { unfold output'. by destruct (truthy (Some extra)). }
    intros Ho. destruct (IH output' s1 Ho) as ([r Hext] & Hmono & Hitems).
    split; [|split].
    + exists (rest' +:+ r). by rewrite Hext, Hout', append_assoc.
    + intros y Hy. apply Hmono, Hdoc. by left.
    + intros t members q m d [[= <- <-]|Hin] Hq.
      * apply Hmono, Hdoc. right. by exists q, m, d.
      * by eapply Hitems.
Qed.

(** X4.  [generate_module_rst] returns [None] exactly for a dictionary
    without keys, and then leaves the session as it is; a text that it
    returns starts with the module heading. *)
Theorem generate_module_rst_none_or_heading (module : pymodule)
    (membersByType : members_by_type) (s : session) :
  ((generate_module_rst module membersByType s).1 = Return None
   ↔ membersByType = [])
  ∧ (membersByType = [] → (generate_module_rst module membersByType s).2 = s)
  ∧ ∀ text, (generate_module_rst module membersByType s).1
            = Return (Some text) →
            ∃ rest, text = module_heading (mod_name module) +:+ rest.
Proof.
  destruct membersByType as [|kv rest].
  - split; [done|]. split; [done|]. by intros text [=].
  - split; [|split; [done|]].
    + split; [|done].
      destruct (normal_generate_module_rst module (kv :: rest))
        as (v & D & Hn & Hv); [done|].
      rewrite Hn. simpl. intros ->. by destruct (Hv None eq_refl) as (?&?&?).
    + unfold generate_module_rst, bind. cbn [add_documented_item modify].
      intros text.
      destruct (append_sections module (kv :: rest) _ _) as [[o|e] s1] eqn:Ha;
        [|done].
      intros [= <-]. eapply append_sections_spec. by rewrite Ha.
Qed.

(** X5.  When [generate_module_rst] returns a text, the documented
    items hold [name (module)] for the module and [qualified (kind)]
    for every member of every bucket. *)
Theorem rendered_items_are_documented (module : pymodule)
    (membersByType : members_by_type) (s : session) (text : string) :
  (generate_module_rst module membersByType s).1 = Return (Some text) →
  let s' := (generate_module_rst module membersByType s).2 in
  mod_name module +:+ " (module)" ∈ documented_items s'
  ∧ ∀ t members q m d,
      In (t, members) membersByType → In (q, m, d) members →
      q +:+ " (" +:+ t +:+ ")" ∈ documented_items s'.
Proof.
  destruct membersByType as [|kv rest]; [done|].
  unfold generate_module_rst, bind. cbn [add_documented_item modify].
  destruct (append_sections module (kv :: rest) _ _) as [[o|e] s1] eqn:Ha;
    [|done].
  intros _. simpl.
  match type of Ha with
  | append_sections ?mo ?items ?out ?s0 = _ =>
      destruct (append_sections_spec mo items out s0 o) as (_ & Hmono & Hitems);
        [by rewrite Ha|]; rewrite Ha in Hmono, Hitems
  end.
  split; [|exact Hitems]. apply Hmono. simpl. set_solver.
Qed.

Lemma append_sections_filter module items output s :
  append_sections module items output s
  = append_sections module (List.filter has_members items) output s.
Proof.
  revert output s.
  induction items as [|[t members] rest IH]; intros output s; [done|].
  destruct members as [|x members]; [apply IH|].
  cbn [List.filter has_members snd append_sections]. unfold bind.
  destruct (generate_member_type_rst module t (x :: members) s)
    as [[extra|e] s1]; [|done].
  destruct (truthy (Some extra)); apply IH.
Qed.

(** X6.  Kinds without members leave no trace: when some bucket has
    members, [generate_module_rst] gives the same text and session as on
    the dictionary without the empty buckets. *)
Theorem empty_buckets_leave_no_trace (module : pymodule)
    (membersByType : members_by_type) (s : session) :
  List.filter has_members membersByType ≠ [] →
  generate_module_rst module membersByType s
  = generate_module_rst module (List.filter has_members membersByType) s.
Proof.
  intros Hne. unfold generate_module_rst.
  destruct (List.filter has_members membersByType) as [|kv' rest'] eqn:Hf;
    [done|].
  destruct membersByType as [|kv rest]; [done|].
  unfold bind. cbn [add_documented_item modify].
  by rewrite append_sections_filter, Hf.
Qed.

(** ** The members of a module, by type *)

Lemma fmap_app_nil {A} (o : option (list A)) : (λ old, old ++ []) <$> o = o.
Proof. destruct o; simpl; by rewrite ?app_nil_r. Qed.

(** One iteration of the member loop appends the retained member, if
    any, to the bucket of its kind. *)
Lemma visit_member_bucket module membersByType x t :
  dict_get t (visit_member module membersByType x)
  = (λ old, old ++ option_list (retained module t x))
      <$> dict_get t membersByType.
Proof.
  destruct x as [[mname m] isattr]. unfold visit_member, retained, owned.
  fold (member_docstring module mname m).
  fold (private_docstring (member_docstring module mname m)).
  destruct (member_type m isattr) as [mtype|];
    [|destruct (_ && _); simpl; by rewrite fmap_app_nil].
  destruct isattr, (imported_members host),
    (String.eqb (getattr_module m (mod_name module)) (mod_name module));
    simpl; try (by rewrite fmap_app_nil);
    destruct (private_docstring _); simpl; try (by rewrite fmap_app_nil);
    rewrite mbt_append_bucket, (String.eqb_sym mtype t);
    destruct (String.eqb t mtype); simpl; by rewrite ?fmap_app_nil.
Qed.

Lemma fold_visit_member_bucket module l membersByType t :
  dict_get t (fold_left (visit_member module) l membersByType)
  = (λ old, old ++ omap (retained module t) l) <$> dict_get t membersByType.
Proof.
  revert membersByType. induction l as [|x l IH]; intros mbt.
  - simpl. by rewrite fmap_app_nil.
  - cbn [fold_left]. rewrite IH, visit_member_bucket.
    destruct (dict_get t mbt) as [old|]; [|done]. simpl. f_equal.
    rewrite <-app_assoc. f_equal. by destruct (retained module t x).
Qed.

Lemma dict_get_key {V} (d : list (string * V)) t :
  In t (map fst d) → ∃ v, dict_get t d = Some v.
Proof.
  induction d as [|[k v] rest IH]; [done|]. simpl.
  destruct (String.eqb_spec k t) as [_|Hk]; [by eexists|].
  intros [?|Hin]; [done|]. by apply IH.
Qed.

(** X7.  On the dictionary of [visit_module], whose keys are the five
    kinds, every kind has a bucket, and the member loop leaves in it
    what it held followed by the retained members of that kind, in the
    order in which [filter_members] yields them. *)
Theorem members_collected_in_order (module : pymodule)
    (l : list (string * pyobj * bool)) (membersByType : members_by_type)
    (t : string) :
  map fst membersByType = doc_module_member_types →
  In t doc_module_member_types →
  ∃ old, dict_get t membersByType = Some old
         ∧ dict_get t (fold_left (visit_member module) l membersByType)
           = Some (old ++ omap (retained module t) l).
Proof.
  intros Hkeys Ht. rewrite <-Hkeys in Ht.
  destruct (dict_get_key membersByType t Ht) as [old Hold].
  exists old. split; [done|]. by rewrite fold_visit_member_bucket, Hold.
Qed.

(** X8.  A member that the loop adds to the bucket of a kind comes from
    an entry of [filter_members] of that kind which is owned by the
    module (it is an attribute, imported members are wanted, or its
    [__module__] is the module) and whose docstring does not match
    [skip_on_docstring_regex]: a member that is merely imported is not
    attributed to the module. *)
Theorem collected_members_are_owned (module : pymodule)
    (l : list (string * pyobj * bool)) (membersByType : members_by_type)
    (t q : string) (m : pyobj) (d : option string) :
  In (q, m, d)
    (default [] (dict_get t (fold_left (visit_member module) l
                               membersByType))) →
  In (q, m, d) (default [] (dict_get t membersByType))
  ∨ ∃ mname isattr,
      In (mname, m, isattr) l
      ∧ q = mod_name module +:+ "." +:+ mname
      ∧ member_type m isattr = Some t
      ∧ (isattr = true ∨ imported_members host = true
         ∨ getattr_module m (mod_name module) = mod_name module)
      ∧ d = member_docstring module mname m
      ∧ private_docstring d = false.
Proof.
  rewrite fold_visit_member_bucket.
  destruct (dict_get t membersByType) as [old|]; [|done]. simpl.
  intros [Hold|Hnew]%in_app_or; [by left|]. right.
  apply list_elem_of_In, list_elem_of_omap in Hnew
    as ([[mname m'] isattr] & Hin%list_elem_of_In & Hret).
  unfold retained in Hret.
  destruct (member_type m' isattr) as [mtype|] eqn:Hty; [|done].
  destruct (owned module m' isattr) eqn:Hown; [|done].
  destruct (private_docstring _) eqn:Hpriv; [done|].
  destruct (String.eqb_spec mtype t) as [->|]; [|done].
  injection Hret as <- <- <-. exists mname, isattr.
  repeat split; try done.
  unfold owned in Hown.
  apply orb_true_iff in Hown as [[->| ->]%orb_true_iff|Heq%String.eqb_eq];
    auto.
Qed.

(** ** What a visit returns, and the submodules of a package *)

Lemma visit_module_value module s r :
  (visit_module module s).1 = Return r →
  r = Some (negb (skipped module)).
Proof.
  destruct (normal_visit_module module) as (v & D & calls & Hn & _ & Hret).
  rewrite Hn. simpl. intros ->. by destruct (Hret r eq_refl).
Qed.

(** X9.  A visit that returns gives [False] for a skipped module and
    [True] for any other module, whatever the module holds. *)
Theorem visit_module_returns (module : pymodule) (s : session)
    (r : option bool) :
  (visit_module module s).1 = Return r →
  r = Some (negb (skipped module)).
Proof. apply visit_module_value. Qed.

Lemma visit_submodules_value subs membersByType s mbt :
  (visit_submodules visit_module subs membersByType s).1 = Return mbt →
  mbt = after_submodules subs membersByType.
Proof.
  revert membersByType s.
  induction subs as [|[submodulename submodule] rest IH];
    intros membersByType s.
  - simpl. by intros [= <-].
  - change (visit_submodules visit_module
              ((submodulename, submodule) :: rest) membersByType s)
      with ((let! r := visit_module submodule in
             if negb (py_bool r)
             then visit_submodules visit_module rest membersByType
             else if dict_has "module" membersByType
             then visit_submodules visit_module rest
                    (mbt_append "module"
                       (submodulename, module_obj submodule,
                        mod_doc submodule) membersByType)
             else visit_submodules visit_module rest membersByType) s).
    unfold bind. unfold after_submodules. cbn [fold_left fst snd].
    pose proof (visit_module_value submodule s) as Hr.
    destruct (visit_module submodule s) as [[r|e] s1]; [|done].
    rewrite (Hr r eq_refl). simpl.
    destruct (skipped submodule); simpl; [apply IH|].
    destruct (dict_has "module" membersByType); apply IH.
Qed.

Lemma after_submodules_bucket subs membersByType t :
  dict_get t (after_submodules subs membersByType)
  = if String.eqb t "module"
    then (λ old, old ++ listed_submodules subs)
           <$> dict_get t membersByType
    else dict_get t membersByType.
Proof.
  revert membersByType. unfold after_submodules, listed_submodules.
  induction subs as [|[submodulename submodule] rest IH]; intros mbt.
  - simpl. destruct (String.eqb t "module"); by rewrite ?fmap_app_nil.
  - cbn [fold_left List.filter fst snd]. rewrite IH.
    destruct (skipped submodule); simpl; [done|].
    unfold dict_has.
    destruct (String.eqb_spec t "module") as [Ht|Ht].
    + rewrite Ht. destruct (dict_get "module" mbt) as [old|] eqn:Hget.
      * rewrite mbt_append_bucket, Hget. simpl. by rewrite <-app_assoc.
      * by rewrite Hget.
    + destruct (dict_get "module" mbt); [|done].
      rewrite mbt_append_bucket.
      by destruct (String.eqb_spec t "module").
Qed.

(** X10.  When the submodule loop of a package returns, the bucket
    ["module"] holds what it held followed by one member, [(name,
    submodule, docstring)], for each submodule that is not skipped, in
    the order of [pkgutil.iter_modules]; skipped submodules are not
    listed and the other buckets are as before. *)
Theorem submodules_listed (subs : list (string * pymodule))
    (membersByType mbt : members_by_type) (s : session) :
  (visit_submodules visit_module subs membersByType s).1 = Return mbt →
  dict_get "module" mbt
  = (λ old, old ++ listed_submodules subs) <$> dict_get "module" membersByType
  ∧ ∀ t, t ≠ "module" → dict_get t mbt = dict_get t membersByType.
Proof.
  intros ->%visit_submodules_value. split.
  - by rewrite after_submodules_bucket.
  - intros t Ht. rewrite after_submodules_bucket.
    by destruct (String.eqb_spec t "module").
Qed.

(** ** Failures *)

Lemma module_rst_import_failure module s :
  documenter_import host module = false →
  ∃ e, (module_rst module s).1 = Raise e.
Proof.
  intros Himport. unfold module_rst, bind.
  destruct (visit_submodules _ _ _ s) as [[mbt|e] s1]; [|by eexists].
  unfold document_module. rewrite Himport. simpl. by eexists.
Qed.

(** X11.  A run raises when the documenter fails to import any module
    of the walk, a root or a submodule at any depth that is visited and
    not skipped. *)
Theorem import_failure_aborts_run (module : pymodule) (s : session) :
  In module walk →
  documenter_import host module = false →
  ∃ e s', generate s = (Raise e, s').
Proof.
  intros Hin Himport.
  destruct (generate s) as [[[]|e] s'] eqn:Hg; [|by eexists _, _].
  apply generate_completed in Hg
    as (_ & D & calls & Hwalk & Htexts & _ & _).
  rewrite <-Hwalk in Hin. apply in_map_iff in Hin as (c & <- & Hc).
  rewrite Forall_forall in Htexts.
  apply list_elem_of_In, Htexts in Hc.
  destruct (module_rst_import_failure c.1 empty_session Himport) as [e He].
  unfold rst_of in Hc. congruence.
Qed.

(** X12.  When the configuration is accepted and the walk of the root
    modules raises (a documenter that fails to import a module, an
    option that cannot be rendered), [generate] raises the same
    exception from the session that the walk leaves, before the
    cleanup: every entry of the generated directory before the run is
    still there, and the only file operations of the run are writes of
    per-module files. *)
Theorem failed_walk_skips_cleanup (s s1 : session) (e : exn) :
  config_accepted →
  visit_modules (modules config) (start_run s) = (Raise e, s1) →
  generate s = (Raise e, s1)
  ∧ dom (files s) ⊆ dom (files s1)
  ∧ Forall (λ ev, ∃ f content, ev = EvWriteRst f content) (run_events s s1).
Proof.
  intros Hok Hwalk. rewrite generate_accepted by done. rewrite Hwalk.
  split; [done|].
  destruct (normal_visit_modules (modules config))
    as (v & D & calls & Hn & _ & _).
  rewrite Hn in Hwalk. injection Hwalk as _ <-.
  destruct (walk_state_facts D calls s)
    as (_ & Hdom & _ & evs & Htrace & Hevs).
  split; [rewrite Hdom; set_solver|].
  unfold run_events. rewrite Htrace, drop_app_length.
  eapply Forall_impl; [exact Hevs|]. intros ev (f & c & -> & _).
  by eexists _, _.
Qed.

(** ** The generated directory after a run *)

Lemma names_of_walk calls :
  map fst calls = walk → names calls = walk_files.
Proof.
  intros Hwalk. unfold names, walk_files. by rewrite <-Hwalk, map_map.
Qed.

Lemma generate_directory (s s' : session) :
  generate s = (Return tt, s') →
  rst_files_generated s' = walk_files
  ∧ dom (files s') = walk_files ∪ listing_entry.
Proof.
  intros (_ & D & calls & Hwalk%names_of_walk & _ & _ & ->)%generate_completed.
  destruct (walk_state_facts D calls s) as (Hgen & Hdom & _ & _).
  set (s1 := add_items D (run_writes calls (start_run s))) in *.
  rewrite Hwalk in Hgen, Hdom. rewrite end_run_generated.
  split; [done|]. apply set_eq. intros f.
  rewrite elem_of_dom, end_run_lookup, Hgen, elem_of_union.
  unfold listing_entry.
  destruct (decide (listing_file = Some f)) as [Hl|Hl].
  - rewrite Hl. split; [intros _; right; set_solver|by eexists].
  - destruct (decide (f ∈ walk_files)) as [Hf|Hf].
    + rewrite <-elem_of_dom, Hdom. set_solver.
    + split; [by intros [? ?]|]. intros [?|Hin]; [done|].
      destruct listing_file; set_solver.
Qed.

(** X13.  After a run that returns, [rst_files_generated] is the set
    of the files of the modules of the walk, whatever it held before,
    and the generated directory holds exactly these files and the
    listing of documented items, when one is configured; the listing is
    taken to be configured as a plain file name. *)
Theorem directory_after_run (s s' : session) :
  listing_is_plain →
  generate s = (Return tt, s') →
  rst_files_generated s' = walk_files
  ∧ dom (files s') = walk_files ∪ listing_entry.
Proof. intros _. apply generate_directory. Qed.

(** X14.  After a run that returns and that overwrites existing files,
    the file of every module of the walk holds the text rendered for
    the module, provided a name denotes one module of the walk and the
    listing, if one is configured, is a plain file name that is not the
    file name of a module of the walk. *)
Theorem files_hold_rendered_text (s s' : session) (module : pymodule) :
  overwrite_generated_source_rsts config = true →
  names_denote_modules → listing_is_plain → listing_apart →
  generate s = (Return tt, s') →
  In module walk →
  ∃ text, rst_of module = Return (Some text)
          ∧ files s' !! rst_basename module = Some text.
Proof.
  intros Hpolicy Hnames _ Hapart
    (_ & D & calls & Hwalk & Htexts & _ & ->)%generate_completed Hin.
  destruct (walk_state_facts D calls s) as (Hgen & _).
  pose proof (run_writes_settled calls (start_run s)
                (walk_consistent calls Hnames Hwalk Htexts)) as Hset.
  pose proof Hin as Hin'.
  rewrite <-Hwalk in Hin. apply in_map_iff in Hin as (c & <- & Hc).
  destruct (Hset c Hc) as (old & Hold & Htext).
  exists c.2. rewrite Forall_forall in Htexts.
  split; [by apply Htexts, list_elem_of_In|].
  rewrite end_run_lookup, Hgen.
  rewrite decide_False by by apply Hapart.
  rewrite decide_True.
  - simpl. by rewrite Hold, (Htext Hpolicy).
  - unfold names. apply elem_of_list_to_set, list_elem_of_In, in_map_iff.
    by exists c.
Qed.

(** X15.  After a run that returns and that keeps existing files, a
    file of a module of the walk that was there before the run has the
    content that it had, when the listing, if one is configured, is a
    plain file name other than the name of this file. *)
Theorem kept_files_after_run (s s' : session) (module : pymodule)
    (old : string) :
  overwrite_generated_source_rsts config = false →
  generate s = (Return tt, s') →
  In module walk →
  files s !! rst_basename module = Some old →
  listing_is_plain →
  listing_file ≠ Some (rst_basename module) →
  files s' !! rst_basename module = Some old.
Proof.
  intros Hpolicy
    (_ & D & calls & Hwalk & _ & _ & ->)%generate_completed Hin Hold _ Hl.
  destruct (walk_state_facts D calls s) as (Hgen & _).
  rewrite end_run_lookup, Hgen. rewrite decide_False by done.
  rewrite decide_True.
  - simpl. by apply run_writes_preserve.
  - rewrite (names_of_walk calls Hwalk). unfold walk_files.
    apply elem_of_list_to_set, list_elem_of_In. by apply in_map.
Qed.

(** X16.  After a run that returns with a listing configured, the
    listing holds one line for each documented item, each item once, in
    the order of [sort] on strings. *)
Theorem listing_after_run (s s' : session) (file : string) :
  generate s = (Return tt, s') →
  listing_file = Some file →
  ∃ items,
    files s' !! file = Some (String.concat "" (map (λ m, m +:+ nl) items))
    ∧ Sorted String.le items
    ∧ NoDup items
    ∧ ∀ item, In item items ↔ item ∈ documented_items s'.
Proof.
  intros (_ & D & calls & _ & _ & _ & ->)%generate_completed Hfile.
  set (s1 := add_items D (run_writes calls (start_run s))).
  exists (sorted_items (documented_items s1)).
  rewrite end_run_lookup, end_run_documented.
  rewrite decide_True by done. split; [done|].
  unfold sorted_items. split; [|split].
  - apply Sorted_merge_sort; apply _.
  - rewrite merge_sort_Permutation. apply NoDup_elements.
  - intros item. rewrite <-list_elem_of_In, merge_sort_Permutation.
    apply elem_of_elements.
Qed.

(** X17.  A visit only adds: whatever it returns or raises, the entries
    of the generated directory, the registered names and the documented
    items that were there are still there, and the file operations of
    the visit are writes of per-module files to registered names. *)
Theorem visit_module_only_adds (module : pymodule) (s : session) :
  let s' := (visit_module module s).2 in
  dom (files s) ⊆ dom (files s')
  ∧ rst_files_generated s ⊆ rst_files_generated s'
  ∧ documented_items s ⊆ documented_items s'
  ∧ ∃ evs, trace s' = trace s ++ evs
           ∧ Forall (λ ev, ∃ f content, ev = EvWriteRst f content
                                        ∧ f ∈ rst_files_generated s') evs.
Proof.
  destruct (normal_visit_module module) as (v & D & calls & Hn & _).
  rewrite Hn. simpl.
  rewrite run_writes_dom, run_writes_generated, run_writes_documented.
  split; [set_solver|]. split; [set_solver|]. split; [set_solver|].
  destruct (run_writes_trace calls s) as (evs & Htrace & Hevs).
  exists evs. split; [done|]. eapply Forall_impl; [exact Hevs|].
  intros ev (f & c & -> & Hf). eexists _, _. split; [done|]. set_solver.
Qed.

(** X20.  With both skip patterns disabled ([None] or the empty
    string), no module is skipped, whatever its name and docstring:
    a visit reaches the module itself. *)
Theorem skipping_disabled (module : pymodule) :
  truthy (skip_module_regex config) = false →
  truthy (skip_on_docstring_regex config) = false →
  skipped module = false ∧ In module (visited module).
Proof.
  intros Hname Hdoc.
  assert (skipped module = false) as Hskip.
  { unfold skipped. by rewrite Hname, Hdoc. }
  split; [done|]. rewrite visited_eq, Hskip.
  apply in_or_app. right. by left.
Qed.
End AutoDocGen.

(** C10 (amended).  When the decider returns [None] for a member, its
    block is rendered from the dictionary of defaults as the call leaves
    it, exactly as if the decider had returned that dictionary.  When
    the call leaves the dictionary as it was passed, the block is the
    one that the defaults give (the flag [:members:] for the class and
    exception kinds, no option otherwise), which is also the block
    rendered under the default decider, the one that returns the
    defaults unchanged. *)
Theorem decider_none_renders_defaults (host : Host) (config : Config)
    (memberType qualifiedName : string)
    (obj : pyobj) (docstring : option string) :
  let decided :=
    call_decider config memberType qualifiedName obj docstring
      (stated_defaults memberType) in
  decided.2 = None →
  get_module_member_rst host config memberType qualifiedName obj docstring
  = append_options decided.1 (member_heading host memberType qualifiedName)
  ∧ (decided.1 = stated_defaults memberType →
     get_module_member_rst host config memberType qualifiedName obj
       docstring
     = Return (member_heading host memberType qualifiedName
               +:+ (if bool_decide
                         (memberType = "class" ∨ memberType = "exception")
                    then "   :members:" +:+ nl else ""))
     ∧ get_module_member_rst host config memberType qualifiedName obj
         docstring
       = get_module_member_rst host (default_config (modules config))
           memberType qualifiedName obj docstring).
Proof.
  intros decided Hnone.
  assert (get_module_member_rst host config memberType qualifiedName obj
            docstring
          = append_options decided.1
              (member_heading host memberType qualifiedName)) as ->.
  { unfold get_module_member_rst. rewrite member_defaults_stated.
    fold decided. destruct decided as [defaults o]. simpl in Hnone.
    by rewrite Hnone. }
  split; [done|]. intros ->. split.
  - unfold stated_defaults. simpl. case_bool_decide; simpl;
      by rewrite ?append_nil_r, ?append_assoc.
  - unfold get_module_member_rst, call_decider.
    by rewrite member_defaults_stated.
Qed.

(** * Concrete runs *)

(** The example of the specification: [pkg] and [pkg.sub] under the
    defaults, from an empty generated directory. *)
Example generate_pkg :
  let r := generate (Demo.host [] []) (default_config [ Demo.pkg ])
             empty_session in
  r.1 = Return tt
  ∧ map_to_list (files r.2)
    = [ ("pkg.sub.rst", Demo.pkg_sub_rst); ("pkg.rst", Demo.pkg_rst) ]
  ∧ trace r.2 = [ EvWriteRst "pkg.sub.rst" Demo.pkg_sub_rst;
                  EvWriteRst "pkg.rst" Demo.pkg_rst ].
Proof. vm_compute. repeat split; reflexivity. Qed.

(** The host model on the patterns and paths of the defaults. *)
Example demo_host_services :
  Demo.re_match ".+[.]_.*" "pkg._private" = true
  ∧ Demo.re_match ".+[.]_.*" "pkg.public_" = false
  ∧ Demo.re_match ".+[.]_.*" "_private" = false
  ∧ Demo.re_search ":meta private:" "Internal. :meta private: no API" = true
  ∧ Demo.normpath "./" = "."
  ∧ Demo.normpath "docs/.." = "."
  ∧ Demo.normpath "autodocgen/" = "autodocgen"
  ∧ Demo.rst_escape "my_func" = "my\_func".
Proof. vm_compute. repeat split; reflexivity. Qed.

(** The second half of the example: a run that keeps existing files
    leaves a hand-edited [pkg.sub.rst] as it is, and still writes
    [pkg.rst]. *)
Example generate_keeps_edited_file :
  let r := generate (Demo.host [] [])
             (Demo.config_with_listing [ Demo.pkg ] false None)
             (Demo.directory [ ("pkg.sub.rst", "edited by hand") ]) in
  r.1 = Return tt
  ∧ files r.2 !! "pkg.sub.rst" = Some "edited by hand"
  ∧ files r.2 !! "pkg.rst" = Some Demo.pkg_rst
  ∧ trace r.2 = [ EvWriteRst "pkg.rst" Demo.pkg_rst ].
Proof. vm_compute. repeat split; reflexivity. Qed.

(** C1 (the code on a module without members).  [pkg.empty] is visited
    and not skipped, and its members by type are the five empty
    buckets; [generate_module_rst] does not return [None] but the module
    heading, and the visit writes [pkg.empty.rst] and returns [True]. *)
Theorem empty_module_gets_a_file :
  let host := Demo.host [] [] in
  let config := default_config [ Demo.pkg_empty ] in
  skipped host config Demo.pkg_empty = false
  ∧ fold_left (visit_member host config Demo.pkg_empty)
      (filter_members host Demo.pkg_empty
         (permitted_members host Demo.pkg_empty)) empty_members_by_type
    = [ ("module", []); ("data", []); ("class", []); ("exception", []);
        ("function", []) ]
  ∧ (generate_module_rst host config Demo.pkg_empty empty_members_by_type
       empty_session).1 = Return (Some Demo.pkg_empty_rst)
  ∧ visit_module host config Demo.pkg_empty empty_session
    = (Return (Some true),
       Session {[ "pkg.empty.rst" := Demo.pkg_empty_rst ]}
         {[ "pkg.empty.rst" ]} {[ "pkg.empty (module)" ]}
         [ EvWriteRst "pkg.empty.rst" Demo.pkg_empty_rst ]).
Proof. vm_compute. repeat split; reflexivity. Qed.

(** C2 (the code on an exception class).  [MyError] derives from
    [BaseException] and is a class, not an attribute; it is classified
    as ["class"], and [pkg.errors.rst] documents it with [autoclass]. *)
Theorem exception_class_is_classified_as_class :
  let host := Demo.host [] [] in
  let config := default_config [ Demo.pkg_errors ] in
  is_exception_type Demo.MyError = true
  ∧ inspect_isclass Demo.MyError = true
  ∧ member_type Demo.MyError false = Some "class"
  ∧ files (visit_module host config Demo.pkg_errors empty_session).2
      !! "pkg.errors.rst" = Some Demo.pkg_errors_rst.
Proof. vm_compute. repeat split; reflexivity. Qed.

(** The block of a class whose decider chooses four options. *)
Lemma member_options_rendering_witness :
  get_module_member_rst (Demo.host [] [])
    (Demo.config_with_options []
       (Some [ ("members", VBool true); ("undoc-members", VNone);
               ("inherited-members", VBool false);
               ("member-order", VStr "bysource") ]))
    "class" "pkg.mod.Thing" Demo.MyError None
  = Return "
Thing
=====

.. autoclass:: Thing
   :members:
   :undoc-members:
   :member-order: bysource
".
Proof.
  rewrite member_options_rendering.
  - vm_compute. reflexivity.
  - vm_compute. repeat constructor.
Defined.

(** C7 (as stated) fails on an option whose value is [None]: it is not
    boolean true, and still renders as the bare flag, not as a flag with
    a value. *)
Lemma none_option_is_a_bare_flag :
  let host := Demo.host [] [] in
  let config :=
    Demo.config_with_options [] (Some [ ("undoc-members", VNone) ]) in
  let f := ObjFunction (Some "pkg.sub") None in
  get_module_member_rst host config "function" "pkg.sub.f" f None
  = Return (member_heading host "function" "pkg.sub.f"
            +:+ "   :undoc-members:" +:+ nl)
  ∧ ¬ ∃ value,
        get_module_member_rst host config "function" "pkg.sub.f" f None
        = Return (member_heading host "function" "pkg.sub.f"
                  +:+ "   :undoc-members: " +:+ value +:+ nl).
Proof.
  split; [vm_compute; reflexivity|].
  intros [value H]. vm_compute in H. discriminate H.
Qed.

(** The decider that returns [None] for a class and leaves the
    defaults as they are. *)
Lemma decider_none_renders_defaults_witness :
  get_module_member_rst (Demo.host [] []) (Demo.config_with_options [] None)
    "class" "pkg.mod.Thing" Demo.MyError None
  = Return "
Thing
=====

.. autoclass:: Thing
   :members:
".
Proof.
  destruct (decider_none_renders_defaults (Demo.host [] [])
              (Demo.config_with_options [] None) "class" "pkg.mod.Thing"
              Demo.MyError None) as [_ H]; [reflexivity|].
  destruct H as [-> _]; [reflexivity|].
  vm_compute. reflexivity.
Defined.

(** C10, as stated, fails.  A decider that sets [private-members] in the
    dictionary of defaults it is passed and returns [None]: the block of
    a function carries the option that was set, where the defaults of a
    function give no option; it is not the block rendered when the
    decider returns the defaults unchanged. *)
Lemma edited_defaults_are_rendered :
  let host := Demo.host [] [] in
  let config := Demo.config_with_decider [] Demo.sets_private_members in
  let f := ObjFunction (Some "pkg.sub") None in
  (call_decider config "function" "pkg.sub.f" f None
     (stated_defaults "function")).2 = None
  ∧ get_module_member_rst host config "function" "pkg.sub.f" f None
    = Return (member_heading host "function" "pkg.sub.f"
              +:+ "   :private-members:" +:+ nl)
  ∧ get_module_member_rst host (default_config []) "function" "pkg.sub.f"
      f None
    = Return (member_heading host "function" "pkg.sub.f")
  ∧ get_module_member_rst host config "function" "pkg.sub.f" f None
    ≠ get_module_member_rst host (default_config []) "function"
        "pkg.sub.f" f None.
Proof.
  split; [reflexivity|]. split; [vm_compute; reflexivity|].
  split; [vm_compute; reflexivity|]. intros H. vm_compute in H.
  discriminate H.
Qed.

(** The package [pkg._private] is skipped by the default name pattern,
    with its submodule. *)
Lemma visit_module_skipped_witness :
  visit_module (Demo.host [] []) (default_config [ Demo.pkg_private ])
    Demo.pkg_private (Demo.directory [ ("pkg._private.rst", "old") ])
  = (Return (Some false), Demo.directory [ ("pkg._private.rst", "old") ])
  ∧ visited (Demo.host [] []) (default_config [ Demo.pkg_private ])
      Demo.pkg_private = [].
Proof.
  apply visit_module_skipped. left. exists ".+[.]_.*".
  split; [reflexivity|]. split; [discriminate|]. vm_compute. reflexivity.
Defined.

(** C4 (as stated) fails when the listing of documented items is written
    to the entry of a module: the first run leaves the listing in
    [pkg.sub.rst], and the second run writes the per-module file
    again. *)
Lemma listing_on_module_file_is_rewritten :
  let host := Demo.host [] [] in
  let config :=
    Demo.config_with_listing [ Demo.pkg_sub ] true (Some "pkg.sub.rst") in
  ¬ ∀ s1 s2,
      generate host config empty_session = (Return tt, s1) →
      generate host config s1 = (Return tt, s2) →
      second_run_is_quiet s1 s2.
Proof.
  intros host config Hquiet.
  destruct (Hquiet (generate host config empty_session).2
              (generate host config
                 (generate host config empty_session).2).2)
    as [_ Hno]; [vm_compute; reflexivity..|].
  apply (Hno "pkg.sub.rst" Demo.pkg_sub_rst). vm_compute. by left.
Qed.

(** Two runs on [pkg], with a listing in [documented.txt] and a stale
    file in the directory. *)
Lemma generate_twice_witness :
  let host := Demo.host [] [] in
  let config :=
    Demo.config_with_listing [ Demo.pkg ] true (Some "documented.txt") in
  let s := Demo.directory [ ("old.rst", "stale"); ("pkg.rst", "edited") ] in
  ∃ s2, generate host config (generate host config s).2 = (Return tt, s2)
        ∧ second_run_is_quiet (generate host config s).2 s2.
Proof.
  intros host config s.
  apply (generate_twice host config s).
  - intros m m' Hm Hm'. vm_compute in Hm, Hm'.
    destruct Hm as [<-|[<-|[]]], Hm' as [<-|[<-|[]]];
      first [reflexivity | discriminate].
  - intros f Hf. vm_compute in Hf. injection Hf as <-.
    split; [reflexivity|split; discriminate].
  - intros m Hm. vm_compute in Hm.
    destruct Hm as [<-|[<-|[]]]; vm_compute; discriminate.
  - vm_compute. reflexivity.
Defined.


(** A hand-edited [pkg.sub.rst] under the policy that keeps existing
    files. *)
Lemma existing_file_policy_witness :
  let config := Demo.config_with_listing [ Demo.pkg ] false None in
  let s := Demo.directory [ ("pkg.sub.rst", "edited by hand") ] in
  files (write_rst config Demo.pkg_sub Demo.pkg_sub_rst s).2 = files s.
Proof.
  intros config s.
  destruct (existing_file_policy (Demo.host [] []) config Demo.pkg_sub
              Demo.pkg_sub_rst "edited by hand" s)
    as (_ & _ & Hkeep & _); [vm_compute; reflexivity|].
  destruct Hkeep as [Hfiles _]; [reflexivity|]. exact Hfiles.
Defined.

(** C8.  The documentation root [/srv/project/docs] is the current
    directory, it holds [conf.py] and [index.rst], and it is configured
    as the generated directory by its absolute path (what
    [os.path.abspath('.')] gives in [conf.py]).  The path denotes the
    directory that ["."] denotes, but it does not normalise to ["."]:
    the check at the head of [generate] lets it through, the run
    returns, and the cleanup removes [conf.py] and [index.rst]. *)
Theorem absolute_root_is_wiped_out :
  let host := Demo.host [] [] in
  let cwd := "/srv/project/docs" in
  let config := Demo.config_with_directory [ Demo.pkg ] "/srv/project/docs" in
  let s := Demo.directory [ ("conf.py", "extensions = []");
                            ("index.rst", "Welcome") ] in
  Demo.abspath cwd (generated_source_dir config) = Demo.abspath cwd "."
  ∧ ¬ fatal_configuration host config
  ∧ ∃ s', generate host config s = (Return tt, s')
          ∧ files s' !! "conf.py" = None
          ∧ files s' !! "index.rst" = None
          ∧ In (EvRemove "conf.py") (run_events s s')
          ∧ In (EvRemove "index.rst") (run_events s s').
Proof.
  intros host cwd config s. split; [reflexivity|]. split.
  - intros [H|H]; [discriminate H|]. vm_compute in H. discriminate H.
  - exists (generate host config s).2.
    split; [vm_compute; reflexivity|].
    split; [vm_compute; reflexivity|].
    split; [vm_compute; reflexivity|].
    split; vm_compute; tauto.
Qed.

(** No root module; the current directory as the generated directory; a
    root module that the documenter fails to import. *)
Lemma generate_aborts_witness :
  let s := Demo.directory [ ("old.rst", "stale") ] in
  (∃ e s', generate (Demo.host [] []) (default_config []) s = (Raise e, s'))
  ∧ (∃ e s',
       generate (Demo.host [] [])
         (Build_Config [ Demo.pkg ] "./" true None None (λ n, n)
            (DeciderDict []) None) s = (Raise e, s'))
  ∧ (∃ e s',
       generate (Demo.host [ "pkg.broken" ] [])
         (default_config [ Demo.pkg; Demo.pkg_broken ]) s = (Raise e, s')).
Proof.
  intros s. split; [|split].
  - destruct (generate_aborts (Demo.host [] []) (default_config []) s)
      as (e & s' & H & _); [left; left; reflexivity|]. by exists e, s'.
  - destruct (generate_aborts (Demo.host [] [])
                (Build_Config [ Demo.pkg ] "./" true None None (λ n, n)
                   (DeciderDict []) None) s)
      as (e & s' & H & _); [left; right; vm_compute; reflexivity|].
    by exists e, s'.
  - destruct (generate_aborts (Demo.host [ "pkg.broken" ] [])
                (default_config [ Demo.pkg; Demo.pkg_broken ]) s)
      as (e & s' & H & _).
    + right. exists Demo.pkg_broken.
      split; [right; left; reflexivity|]. split; vm_compute; reflexivity.
    + by exists e, s'.
Defined.


(** * Several configurations *)

(** [generateAll]: [generate] for each configuration of
    [autodocgen_config], in order; a single dictionary stands for the
    list that holds it.  The session has one generated directory: the
    configurations are those that share [generated_source_dir]. *)
Fixpoint generateAll (host : Host) (configs : list Config) : M unit :=
  match configs with
  | [] => ret tt
  | c :: rest => do! generate host c in generateAll host rest
  end.

Lemma generateAll_app host configs configs' s :
  generateAll host (configs ++ configs') s
  = bind (generateAll host configs) (λ _, generateAll host configs') s.
Proof.
  revert s. induction configs as [|c rest IH]; intros s; [done|].
  cbn [app generateAll]. unfold bind in *.
  destruct (generate host c s) as [[[]|e] s1]; [apply IH|done].
Qed.

(** X18.  [generateAll] stops at the first configuration whose run
    raises: the configurations after it are not run, and the session is
    the one that the failed run leaves. *)
Theorem generateAll_stops_at_failure (host : Host)
    (before after : list Config) (c : Config) (s s1 s2 : session) (e : exn) :
  generateAll host before s = (Return tt, s1) →
  generate host c s1 = (Raise e, s2) →
  generateAll host (before ++ c :: after) s = (Raise e, s2).
Proof.
  intros Hbefore Hc. rewrite generateAll_app. unfold bind.
  rewrite Hbefore. cbn [generateAll]. unfold bind. by rewrite Hc.
Qed.

(** X19.  When the configurations share the generated directory, each
    listing that is configured is a plain file name and [generateAll]
    returns, the directory is the one of the last configuration: the
    files of the modules of its walk and its listing.  The files that
    the runs of the earlier configurations wrote for other modules are
    removed by its cleanup. *)
Theorem generateAll_last_wins (host : Host) (configs : list Config)
    (c : Config) (s s' : session) :
  Forall (λ c', generated_source_dir c' = generated_source_dir c) configs →
  Forall listing_is_plain (configs ++ [ c ]) →
  generateAll host (configs ++ [ c ]) s = (Return tt, s') →
  rst_files_generated s' = walk_files host c
  ∧ dom (files s') = walk_files host c ∪ listing_entry c.
Proof.
  intros _ _. rewrite generateAll_app. unfold bind.
  destruct (generateAll host configs s) as [[[]|e] s1]; [|done].
  cbn [generateAll]. unfold bind.
  destruct (generate host c s1) as [[[]|e] s2] eqn:Hc; [|done].
  intros [= <-]. by apply generate_directory in Hc.
Qed.

(** * Concrete runs of the further properties *)

Lemma basename_of_rstfile_witness :
  os_path_basename (rstfile (default_config []) Demo.pkg_sub) = "pkg.sub.rst".
Proof.
  rewrite (basename_of_rstfile (default_config []) Demo.pkg_sub);
    reflexivity.
Defined.

Lemma member_heading_last_component_witness :
  member_heading (Demo.host [] []) "function" ("lib.api" +:+ "." +:+ "f") = "
f
=

.. autofunction:: f
".
Proof.
  rewrite (member_heading_last_component (Demo.host [] []) "function"
             "lib.api" "f"); reflexivity.
Defined.

(** An integer as the value of an option. *)
Lemma member_rst_raises_witness :
  ∃ e,
    get_module_member_rst (Demo.host [] [])
      (Demo.config_with_options []
         (Some [ ("members", VBool true); ("member-order", VInt 1) ]))
      "class" "pkg.mod.Thing" Demo.MyError None = Raise e.
Proof.
  apply (member_rst_raises (Demo.host [] [])
           (Demo.config_with_options []
              (Some [ ("members", VBool true); ("member-order", VInt 1) ]))
           "class" "pkg.mod.Thing" Demo.MyError None).
  vm_compute. right. left. by exists 1%Z.
Defined.

(** The dictionary of five empty buckets is not the empty dictionary. *)
Lemma generate_module_rst_none_or_heading_witness :
  (generate_module_rst (Demo.host [] []) (default_config []) More.lib_util
     empty_members_by_type empty_session).1 ≠ Return None
  ∧ generate_module_rst (Demo.host [] []) (default_config []) More.lib_util
      [] empty_session = (Return None, empty_session).
Proof.
  split.
  - intros Hnone.
    by apply (generate_module_rst_none_or_heading (Demo.host [] [])
                (default_config []) More.lib_util empty_members_by_type
                empty_session) in Hnone.
  - reflexivity.
Defined.

Lemma rendered_items_are_documented_witness :
  let s' := (generate_module_rst (Demo.host [] []) (default_config [])
               More.lib_api More.lib_api_members empty_session).2 in
  "lib.api (module)" ∈ documented_items s'
  ∧ "lib.api.f (function)" ∈ documented_items s'.
Proof.
  destruct (rendered_items_are_documented (Demo.host [] [])
              (default_config []) More.lib_api More.lib_api_members
              empty_session More.lib_api_rst) as [Hmodule Hmembers].
  - vm_compute. reflexivity.
  - split; [exact Hmodule|].
    apply (Hmembers "function" [ ("lib.api.f", More.f, Some "Does f.") ]
             "lib.api.f" More.f (Some "Does f.")).
    + do 4 right. by left.
    + by left.
Defined.

Lemma empty_buckets_leave_no_trace_witness :
  generate_module_rst (Demo.host [] []) (default_config []) More.lib_api
    More.lib_api_members empty_session
  = generate_module_rst (Demo.host [] []) (default_config []) More.lib_api
      [ ("function", [ ("lib.api.f", More.f, Some "Does f.") ]) ]
      empty_session.
Proof.
  apply (empty_buckets_leave_no_trace (Demo.host [] []) (default_config [])
           More.lib_api More.lib_api_members empty_session).
  discriminate.
Defined.

(** The members of [lib.api]: [f] is retained, the imported [join] is
    not. *)
Lemma members_collected_in_order_witness :
  dict_get "function"
    (fold_left (visit_member (Demo.host [] []) (default_config []) More.lib_api)
       [ ("f", More.f, false); ("join", More.imported, false) ]
       empty_members_by_type)
  = Some [ ("lib.api.f", More.f, Some "Does f.") ].
Proof.
  destruct (members_collected_in_order (Demo.host [] []) (default_config [])
              More.lib_api
              [ ("f", More.f, false); ("join", More.imported, false) ]
              empty_members_by_type "function") as (old & [= <-] & ->).
  - reflexivity.
  - do 4 right. by left.
  - reflexivity.
Defined.

Lemma collected_members_are_owned_witness :
  In ("lib.api.f", More.f, Some "Does f.") []
  ∨ ∃ mname isattr,
      In (mname, More.f, isattr)
        [ ("f", More.f, false); ("join", More.imported, false) ]
      ∧ "lib.api.f" = "lib.api" +:+ "." +:+ mname
      ∧ member_type More.f isattr = Some "function"
      ∧ (isattr = true ∨ false = true
         ∨ getattr_module More.f "lib.api" = "lib.api")
      ∧ Some "Does f." = member_docstring (Demo.host [] []) More.lib_api mname
                           More.f
      ∧ private_docstring (Demo.host [] []) (default_config [])
          (Some "Does f.") = false.
Proof.
  apply (collected_members_are_owned (Demo.host [] []) (default_config [])
           More.lib_api
           [ ("f", More.f, false); ("join", More.imported, false) ]
           empty_members_by_type "function" "lib.api.f" More.f
           (Some "Does f.")).
  vm_compute. by left.
Defined.

Lemma visit_module_returns_witness :
  Some true
  = Some (negb (skipped (Demo.host [] []) (default_config [ More.lib ])
                  More.lib)).
Proof.
  apply (visit_module_returns (Demo.host [] []) (default_config [ More.lib ])
           More.lib empty_session).
  vm_compute. reflexivity.
Defined.

(** The submodules of [lib]: [lib._impl] is skipped. *)
Lemma submodules_listed_witness :
  let host := Demo.host [] [] in
  let config := default_config [ More.lib ] in
  ∃ mbt,
    (visit_submodules (visit_module host config) (submodules More.lib)
       empty_members_by_type empty_session).1 = Return mbt
    ∧ dict_get "module" mbt
      = Some [ ("lib.api", module_obj More.lib_api, None);
               ("lib.util", module_obj More.lib_util, None) ].
Proof.
  intros host config.
  assert ((visit_submodules (visit_module host config) (submodules More.lib)
             empty_members_by_type empty_session).1
          = Return (after_submodules host config (submodules More.lib)
                      empty_members_by_type)) as Hmbt
    by (vm_compute; reflexivity).
  eexists. split; [exact Hmbt|].
  destruct (submodules_listed host config (submodules More.lib)
              empty_members_by_type _ empty_session Hmbt) as [-> _].
  reflexivity.
Defined.

Lemma import_failure_aborts_run_witness :
  ∃ e s',
    generate (Demo.host [ "lib.api" ] []) (default_config [ More.lib ])
      empty_session = (Raise e, s').
Proof.
  apply (import_failure_aborts_run (Demo.host [ "lib.api" ] [])
           (default_config [ More.lib ]) More.lib_api empty_session).
  - vm_compute. by left.
  - reflexivity.
Defined.

(** [lib.util] is written, then the import of [lib.broken] fails: the
    stale file stays. *)
Lemma failed_walk_skips_cleanup_witness :
  let host := Demo.host [ "lib.broken" ] [] in
  let config :=
    default_config [ More.lib_util; PyModule "lib.broken" None None [] ] in
  let s := Demo.directory [ ("old.rst", "stale") ] in
  let e := AssertionError "documenter failed to import module lib.broken" in
  let s1 := (visit_modules host config (modules config) (start_run s)).2 in
  generate host config s = (Raise e, s1)
  ∧ dom (files s) ⊆ dom (files s1)
  ∧ Forall (λ ev, ∃ f content, ev = EvWriteRst f content) (run_events s s1).
Proof.
  intros host config s e s1.
  apply (failed_walk_skips_cleanup host config s s1 e).
  - split; [vm_compute; discriminate|discriminate].
  - vm_compute. reflexivity.
Defined.

Lemma directory_after_run_witness :
  let host := Demo.host [] [] in
  let config :=
    Demo.config_with_listing [ More.lib ] true (Some "documented.txt") in
  let s' := (generate host config (Demo.directory [ ("old.rst", "x") ])).2 in
  rst_files_generated s' = walk_files host config
  ∧ dom (files s') = walk_files host config ∪ listing_entry config.
Proof.
  intros host config s'.
  apply (directory_after_run host config (Demo.directory [ ("old.rst", "x") ])).
  - intros f Hf. vm_compute in Hf. injection Hf as <-.
    split; [reflexivity|split; discriminate].
  - vm_compute. reflexivity.
Defined.

(** The walk of [lib] names three modules. *)
Lemma lib_names_denote_modules (overwrite : bool) (file : option string) :
  names_denote_modules (Demo.host [] [])
    (Demo.config_with_listing [ More.lib ] overwrite file).
Proof.
  intros m m' Hm Hm'. vm_compute in Hm, Hm'.
  destruct Hm as [<-|[<-|[<-|[]]]], Hm' as [<-|[<-|[<-|[]]]];
    first [reflexivity | discriminate].
Qed.

Lemma files_hold_rendered_text_witness :
  let host := Demo.host [] [] in
  let config := Demo.config_with_listing [ More.lib ] true None in
  let s := Demo.directory [ ("lib.api.rst", "edited") ] in
  ∃ text, rst_of host config More.lib_api = Return (Some text)
          ∧ files (generate host config s).2 !! "lib.api.rst" = Some text.
Proof.
  intros host config s.
  apply (files_hold_rendered_text host config s (generate host config s).2
           More.lib_api).
  - reflexivity.
  - apply lib_names_denote_modules.
  - intros f Hf. discriminate Hf.
  - intros m _. discriminate.
  - vm_compute. reflexivity.
  - vm_compute. by left.
Defined.

Lemma kept_files_after_run_witness :
  let host := Demo.host [] [] in
  let config := Demo.config_with_listing [ More.lib ] false None in
  let s := Demo.directory [ ("lib.api.rst", "edited") ] in
  files (generate host config s).2 !! "lib.api.rst" = Some "edited".
Proof.
  intros host config s.
  apply (kept_files_after_run host config s (generate host config s).2
           More.lib_api "edited").
  - reflexivity.
  - vm_compute. reflexivity.
  - vm_compute. by left.
  - reflexivity.
  - intros f Hf. discriminate Hf.
  - discriminate.
Defined.

Lemma listing_after_run_witness :
  let host := Demo.host [] [] in
  let config :=
    Demo.config_with_listing [ More.lib ] true (Some "documented.txt") in
  ∃ items,
    files (generate host config empty_session).2 !! "documented.txt"
    = Some (String.concat "" (map (λ m, m +:+ nl) items))
    ∧ Sorted String.le items
    ∧ NoDup items
    ∧ ∀ item,
        In item items
        ↔ item ∈ documented_items (generate host config empty_session).2.
Proof.
  intros host config.
  apply (listing_after_run host config empty_session).
  - vm_compute. reflexivity.
  - reflexivity.
Defined.

(** The listing of [lib]. *)
Example listing_of_lib :
  files (generate (Demo.host [] [])
           (Demo.config_with_listing [ More.lib ] true (Some "documented.txt"))
           empty_session).2 !! "documented.txt"
  = Some "lib (module)
lib.api (module)
lib.api.f (function)
lib.util (module)
".
Proof. vm_compute. reflexivity. Qed.

(** Two configurations on one directory: the run for [lib] removes the
    files that the run for [pkg] wrote. *)
Example generateAll_pkg_then_lib :
  let r := generateAll (Demo.host [] [])
             [ default_config [ Demo.pkg ]; default_config [ More.lib ] ]
             empty_session in
  r.1 = Return tt
  ∧ map fst (map_to_list (files r.2))
    ≡ₚ [ "lib.rst"; "lib.api.rst"; "lib.util.rst" ]
  ∧ In (EvRemove "pkg.rst") (trace r.2)
  ∧ In (EvRemove "pkg.sub.rst") (trace r.2).
Proof.
  vm_compute. split; [reflexivity|]. split; [|split; auto 10].
  apply NoDup_Permutation; [repeat constructor; set_solver..|].
  intros x. set_solver.
Qed.

Lemma generateAll_stops_at_failure_witness :
  let host := Demo.host [] [] in
  ∃ msg,
    generateAll host
      ([ default_config [ Demo.pkg ] ]
       ++ default_config [] :: [ default_config [ More.lib ] ])
      empty_session
    = (Raise (AssertionError msg),
       (generate host (default_config [ Demo.pkg ]) empty_session).2).
Proof.
  intros host. exists "no modules".
  apply (generateAll_stops_at_failure host [ default_config [ Demo.pkg ] ]
           [ default_config [ More.lib ] ] (default_config []) empty_session
           (generate host (default_config [ Demo.pkg ]) empty_session).2).
  - vm_compute. reflexivity.
  - vm_compute. reflexivity.
Defined.

Lemma generateAll_last_wins_witness :
  let host := Demo.host [] [] in
  let s' := (generateAll host
               ([ default_config [ Demo.pkg ] ] ++ [ default_config [ More.lib ] ])
               empty_session).2 in
  rst_files_generated s' = walk_files host (default_config [ More.lib ])
  ∧ dom (files s')
    = walk_files host (default_config [ More.lib ])
      ∪ listing_entry (default_config [ More.lib ]).
Proof.
  intros host s'.
  apply (generateAll_last_wins host [ default_config [ Demo.pkg ] ]
           (default_config [ More.lib ]) empty_session).
  - by repeat constructor.
  - cbn [app]. constructor; [intros f Hf; discriminate Hf|].
    constructor; [intros f Hf; discriminate Hf|]. constructor.
  - vm_compute. reflexivity.
Defined.

(** With the patterns disabled, the private package is visited. *)
Lemma skipping_disabled_witness :
  let config :=
    Build_Config [ Demo.pkg_private ] "autodocgen/" true (Some "") None
      (λ n, n) (DeciderDict []) None in
  skipped (Demo.host [] []) config Demo.pkg_private = false
  ∧ In Demo.pkg_private (visited (Demo.host [] []) config Demo.pkg_private).
Proof.
  intros config.
  apply (skipping_disabled (Demo.host [] []) config Demo.pkg_private);
    reflexivity.
Defined.
